(** * bitbucketcli: a shallow embedding of [bitbucketcli.py]

    The program is a thin command-line client: it parses its arguments with
    argparse, resolves the credentials, walks workspace -> project ->
    repository through the atlassian SDK and prints what it finds.

    What the embedding keeps:
    - every decision the program's own code takes (validation of the parsed
      arguments, credential resolution, dispatch, formatting, the local
      checks of [create_repository]);
    - the order of the observable effects, as one trace of events (lines on
      standard output, the help text, argparse error reports, the password
      prompt, every round trip to the SDK).

    What it abstracts:
    - argparse's tokenizer.  A command line is given as an [Invocation]: the
      options supplied at each parser level, plus the tokens no parser of the
      chain recognises.  Requests for [--help] and [--version], which end the
      process inside argparse before any code of the program runs, are not
      part of an [Invocation];
    - the SDK, which is a parameter of the development ([Atlassian]). *)

From Stdlib Require Import String List Bool ZArith.
From Stdlib Require Import Lia PeanoNat.
Import ListNotations.
Open Scope string_scope.

(** ** Python values *)

(** A Python reference handed to code that checks [is None] and
    [isinstance]: [None], an object of some unrelated class, or an instance
    of the expected class. *)
Inductive pyobj (A : Type) : Type :=
| PyNone
| PyOther
| PyObj (a : A).
Arguments PyNone {A}.
Arguments PyOther {A}.
Arguments PyObj {A} a.

(** Truthiness of an [Optional[str]]: [None] and the empty string are
    falsy. *)
Definition truthy (v : option string) : bool :=
  match v with
  | None => false
  | Some s => negb (s =? "")
  end.

(** Python's [a or b] on [Optional[str]] operands. *)
Definition py_or (a b : option string) : option string :=
  if truthy a then a else b.

(** [v == s] for an [Optional[str]] and a string literal. *)
Definition py_eq (v : option string) (s : string) : bool :=
  match v with
  | None => false
  | Some x => x =? s
  end.

Definition is_None {A : Type} (v : option A) : bool :=
  match v with
  | None => true
  | Some _ => false
  end.

(** ** Exceptions, events and the effect monad *)

Inductive exn : Type :=
| ValueError (msg : string)
| TypeError (msg : string)
| KeyError
| IndexError
| HTTPError (msg : string)      (* a fault raised by the SDK *)
| SystemExit (code : Z).

(** The remote objects, as far as the program reads them. *)
Record Workspace : Type := { ws_name : string; ws_slug : string }.
Record Project : Type := { pr_name : string; pr_key : string }.

(** A value of the [links] dictionary is observed through [str()] and
    through [v[i]['href']]. *)
Record LinkValue : Type := {
  lv_str : string;
  lv_hrefs : list (option string)
}.

Record Repository : Type := {
  repo_name : string;
  repo_slug : string;
  repo_links : option (list (string * LinkValue))   (* data.get("links") *)
}.

(** One round trip to the SDK. *)
Inductive call : Type :=
| WorkspacesEach
| WorkspacesGet (key : string)
| ProjectsEach (w : Workspace)
| ProjectsGet (w : Workspace) (key : string)
| RepositoriesEach (p : Project)
| RepositoriesGet (p : Project) (key : string)
| RepositoriesCreate (w : Workspace) (name : string) (project_key : string)
                     (is_private : option bool) (fork_policy : option string).

(** What argparse itself reports.  When several violations apply argparse
    reports the first one in token order; the parsers below fix one order. *)
Inductive grammar_error : Type :=
| MissingArguments (names : list string)
    (* the following arguments are required: ... *)
| OneOfRequired (names : list string)
    (* one of the arguments ... is required *)
| NotAllowedWith (flag other : string)
    (* argument FLAG: not allowed with argument OTHER *)
| Unrecognized (tokens : list string).
    (* unrecognized arguments: ... *)

Inductive event : Type :=
| Print (line : string)            (* print(...) *)
| PrintHelp                        (* parser.print_help() *)
| ArgparseError (e : grammar_error) (* usage and message on stderr *)
| ParserError (msg : string)       (* parser.error(msg), on stderr *)
| Getpass (prompt : string)        (* getpass.getpass(prompt) *)
| Remote (c : call)
| RunTests.                        (* unittest.main(...), which ends the
                                      process with the runner's status *)

(** A computation: the events it emitted, then either the exception that
    ended it or its value. *)
Definition M (A : Type) : Type := (list event * (exn + A))%type.

Definition ret {A : Type} (a : A) : M A := ([], inr a).

Definition raise {A : Type} (e : exn) : M A := ([], inl e).

Definition emit (ev : event) : M unit := ([ev], inr tt).

Definition bind {A B : Type} (m : M A) (k : A -> M B) : M B :=
  match m with
  | (t, inl e) => (t, inl e)
  | (t, inr a) => let (t', r) := k a in ((t ++ t')%list, r)
  end.

Declare Scope py_scope.
Delimit Scope py_scope with py.
Notation "x <- m ;; k" := (bind m (fun x => k))
  (at level 100, m at next level, right associativity) : py_scope.
Notation "m ;;; k" := (bind m (fun _ => k))
  (at level 100, right associativity) : py_scope.
Open Scope py_scope.

Definition print (line : string) : M unit := emit (Print line).

Definition print_help : M unit := emit PrintHelp.

(** [ArgumentParser.error]: report on stderr, then [sys.exit(2)]. *)
Definition parser_error {A : Type} (msg : string) : M A :=
  emit (ParserError msg) ;;; raise (SystemExit 2).

Definition argparse_error {A : Type} (e : grammar_error) : M A :=
  emit (ArgparseError e) ;;; raise (SystemExit 2).

Definition trace {A : Type} (m : M A) : list event := fst m.

Definition outcome {A : Type} (m : M A) : exn + A := snd m.

(** Exit status of the process whose main function ran as [m]. *)
Definition exit_status {A : Type} (m : M A) : Z :=
  match outcome m with
  | inr _ => 0
  | inl (SystemExit c) => c
  | inl _ => 1
  end.

(** ** The atlassian SDK

    The SDK is not part of the repository: its answers are parameters.  A
    lookup either raises or hands back a reference; an enumeration yields
    items and may raise after them. *)

Inductive response (A : Type) : Type :=
| Fault (msg : string)
| Reply (o : pyobj A).
Arguments Fault {A} msg.
Arguments Reply {A} o.

Record listing (A : Type) : Type := {
  items : list A;
  fault : option string
}.
Arguments items {A} l.
Arguments fault {A} l.

(** An authenticated session, [atlassian.bitbucket.Cloud]. *)
Record Cloud : Type := {
  workspaces_each : listing Workspace;
  workspaces_get : string -> response Workspace;
  projects_each : Workspace -> listing Project;
  projects_get : Workspace -> string -> response Project;
  repositories_each : Project -> listing Repository;
  repositories_get : Project -> string -> response Repository;
  repositories_create :
    Workspace -> string -> string -> option bool -> option string ->
    response Repository
}.

(** The module [atlassian]: the three fork-policy constants of
    [WorkspaceRepositories] and the session constructor. *)
Record Atlassian : Type := {
  ALLOW_FORKS : string;
  NO_PUBLIC_FORKS : string;
  NO_FORKS : string;
  Cloud_new : option string -> option string -> Cloud
}.

(** Modelled from the spec: [WorkspaceRepositories.FORK_POLICIES] is not in
    the repository; the spec describes it as the three recognized policy
    tokens. *)
Definition FORK_POLICIES (sdk : Atlassian) : list string :=
  [ALLOW_FORKS sdk; NO_PUBLIC_FORKS sdk; NO_FORKS sdk].

(** A lookup: one round trip, then the answer or the SDK's exception. *)
Definition remote {A : Type} (c : call) (r : response A) : M (pyobj A) :=
  emit (Remote c) ;;;
  match r with
  | Fault msg => raise (HTTPError msg)
  | Reply o => ret o
  end.

Fixpoint iterate {A : Type} (body : A -> M unit) (l : list A) : M unit :=
  match l with
  | [] => ret tt
  | x :: rest => body x ;;; iterate body rest
  end.

(** [for x in coll.each(): body(x)]. *)
Definition for_each {A : Type} (c : call) (l : listing A)
    (body : A -> M unit) : M unit :=
  emit (Remote c) ;;;
  iterate body (items l) ;;;
  match fault l with
  | Some msg => raise (HTTPError msg)
  | None => ret tt
  end.

(** ** The wrapper classes *)

Definition BitbucketCLIRepositoryWrapper (repository : pyobj Repository)
    : M Repository :=
  match repository with
  | PyNone => raise (ValueError "repository is None")
  | PyOther =>
      raise (TypeError ("repository is not an instance of " ++
                        "atlassian.bitbucket.cloud.repositories.Repository"))
  | PyObj r => ret r
  end.

Definition BitbucketCLIProjectWrapper (project : pyobj Project) : M Project :=
  match project with
  | PyNone => raise (ValueError "project is None")
  | PyOther =>
      raise (TypeError ("project is not an instance of " ++
                        "atlassian.bitbucket.Cloud.projects.Project"))
  | PyObj p => ret p
  end.

Definition BitbucketCLIWorkspaceWrapper (workspace : pyobj Workspace)
    : M Workspace :=
  match workspace with
  | PyNone => raise (ValueError "workspace is None")
  | PyOther =>
      raise (TypeError ("workspace is not an instance of " ++
                        "atlassian.bitbucket.Cloud.workspaces.Workspace"))
  | PyObj w => ret w
  end.

(** [BitbucketCLIRepositoryWrapper.https_url] and [.ssh_url]:
    [self.links['clone'][i]['href']]. *)
Definition clone_href (repository : Repository) (i : nat) : M string :=
  match repo_links repository with
  | None => raise (TypeError "'NoneType' object is not subscriptable")
  | Some links =>
      match find (fun kv => fst kv =? "clone") links with
      | None => raise KeyError
      | Some (_, v) =>
          match nth_error (lv_hrefs v) i with
          | None => raise IndexError
          | Some None => raise KeyError
          | Some (Some href) => ret href
          end
      end
  end.

Definition https_url (repository : Repository) : M string :=
  clone_href repository 0.

Definition ssh_url (repository : Repository) : M string :=
  clone_href repository 1.

(** [BitbucketWrapper.__getitem__]. *)
Definition bbc_getitem (cloud : Cloud) (key : string) : M Workspace :=
  w <- remote (WorkspacesGet key) (workspaces_get cloud key) ;;
  BitbucketCLIWorkspaceWrapper w.

(** [BitbucketCLIWorkspaceWrapper.__getitem__]. *)
Definition workspace_getitem (cloud : Cloud) (workspace : Workspace)
    (key : string) : M Project :=
  p <- remote (ProjectsGet workspace key) (projects_get cloud workspace key) ;;
  BitbucketCLIProjectWrapper p.

(** [BitbucketCLIProjectWrapper.__getitem__]. *)
Definition project_getitem (cloud : Cloud) (project : Project)
    (key : string) : M Repository :=
  r <- remote (RepositoriesGet project key)
              (repositories_get cloud project key) ;;
  BitbucketCLIRepositoryWrapper r.

(** ** The command line *)

(** Flags of [repository ... show]. *)
Record ShowOptions : Type := {
  opt_links : bool;
  opt_https_url : bool;
  opt_ssh_url : bool
}.

(** Flags of [repository ... create]. *)
Record CreateOptions : Type := {
  opt_public : bool;
  opt_private : bool;
  opt_allow_forks : bool;
  opt_no_allow_forks : bool;
  opt_no_public_forks : bool
}.

Inductive Action : Type :=
| NoAction
| Show (o : ShowOptions)
| Create (o : CreateOptions).

(** The subcommand and the options given after it.  [alias] tells that the
    repository subcommand was typed [repo]. *)
Inductive Command : Type :=
| NoCommand
| Tests
| WorkspaceCommand (list_ : bool) (workspace : option string)
| ProjectCommand (workspace : option string) (list_ : bool)
                 (project : option string)
| RepositoryCommand (alias : bool) (workspace project : option string)
                    (list_ : bool) (repository : option string)
                    (action : Action).

Record Invocation : Type := {
  opt_user : option string;
  opt_password : option string;
  opt_for_scripting : bool;
  command : Command;
  unrecognized : list string
}.

(** [argparse.Namespace].  argparse sets only the attributes of the parsers
    it went through; the program reads an attribute only on a path where it is
    set, so the others hold a default that is never read. *)
Record Namespace : Type := {
  args_user : option string;
  args_password : option string;
  args_for_scripting : bool;
  args_subcommand : string;
  args_list : bool;
  args_workspace : option string;
  args_project : option string;
  args_repository : option string;
  args_repo_subcommand : option string;
  args_links : bool;
  args_https_url : bool;
  args_ssh_url : bool;
  args_public : bool;
  args_private : bool;
  args_allow_forks : bool;
  args_no_allow_forks : bool;
  args_no_public_forks : bool
}.

Definition no_show : ShowOptions :=
  {| opt_links := false; opt_https_url := false; opt_ssh_url := false |}.

Definition no_create : CreateOptions :=
  {| opt_public := false; opt_private := false; opt_allow_forks := false;
     opt_no_allow_forks := false; opt_no_public_forks := false |}.

Definition namespace (inv : Invocation) (subcommand : string)
    (list_ : bool) (workspace project repository : option string)
    (repo_subcommand : option string)
    (sh : ShowOptions) (cr : CreateOptions) : Namespace :=
  {| args_user := opt_user inv;
     args_password := opt_password inv;
     args_for_scripting := opt_for_scripting inv;
     args_subcommand := subcommand;
     args_list := list_;
     args_workspace := workspace;
     args_project := project;
     args_repository := repository;
     args_repo_subcommand := repo_subcommand;
     args_links := opt_links sh;
     args_https_url := opt_https_url sh;
     args_ssh_url := opt_ssh_url sh;
     args_public := opt_public cr;
     args_private := opt_private cr;
     args_allow_forks := opt_allow_forks cr;
     args_no_allow_forks := opt_no_allow_forks cr;
     args_no_public_forks := opt_no_public_forks cr |}.

(** ** The grammar declared by [__get_parser]

    Each function below is the parser that the source declares with
    [add_argument], [add_mutually_exclusive_group] and [add_subparsers],
    applied to the options of an invocation.  argparse rejects a conflict
    when it meets the second flag, runs a nested parser when it meets its
    name, and checks what is required once all tokens are consumed. *)

Definition given (v : option string) : bool := negb (is_None v).

(** Two members of one mutually exclusive group. *)
Definition exclusive (a b : bool) (name_a name_b : string) : M unit :=
  if a && b then argparse_error (NotAllowedWith name_b name_a) else ret tt.

(** [required=True] arguments: all the missing ones are reported at once. *)
Definition required_arguments (l : list (bool * string)) : M unit :=
  match map snd (filter (fun x => negb (fst x)) l) with
  | [] => ret tt
  | names => argparse_error (MissingArguments names)
  end.

(** [add_mutually_exclusive_group(required=True)]. *)
Definition required_group (present : bool) (names : list string) : M unit :=
  if present then ret tt else argparse_error (OneOfRequired names).

(** The parser filled by [__create_workspace_subparser]. *)
Definition workspace_subparser (inv : Invocation) (list_ : bool)
    (workspace : option string) : M Namespace :=
  exclusive list_ (given workspace) "--list/-l" "--workspace/-w" ;;;
  required_group (list_ || given workspace) ["--list/-l"; "--workspace/-w"] ;;;
  ret (namespace inv "workspace" list_ workspace None None None
                 no_show no_create).

(** The parser filled by [__create_project_subparser]. *)
Definition project_subparser (inv : Invocation) (workspace : option string)
    (list_ : bool) (project : option string) : M Namespace :=
  exclusive list_ (given project) "--list/-l" "--project/-P" ;;;
  required_arguments [(given workspace, "--workspace/-w")] ;;;
  required_group (list_ || given project) ["--list/-l"; "--project/-P"] ;;;
  ret (namespace inv "project" list_ workspace project None None
                 no_show no_create).

(** [subparser_sub2], the parser of [create]: groups [grp421], [grp422]. *)
Definition create_subparser (o : CreateOptions) : M unit :=
  exclusive (opt_public o) (opt_private o) "--public" "--private" ;;;
  exclusive (opt_allow_forks o) (opt_no_allow_forks o)
            "--allow-forks" "--no-allow-forks" ;;;
  exclusive (opt_allow_forks o) (opt_no_public_forks o)
            "--allow-forks" "--no-public-forks" ;;;
  exclusive (opt_no_allow_forks o) (opt_no_public_forks o)
            "--no-allow-forks" "--no-public-forks".

Definition has_action (action : Action) : bool :=
  match action with
  | NoAction => false
  | _ => true
  end.

(** The parser filled by [__create_repository_subparser]; [required] is
    the attribute [subparser_subs.required] at the time of the parse. *)
Definition repository_subparser (required : bool) (inv : Invocation)
    (alias : bool) (workspace project : option string) (list_ : bool)
    (repository : option string) (action : Action) : M Namespace :=
  exclusive list_ (given repository) "--list/-l" "--repository/-r" ;;;
  match action with
  | Create o => create_subparser o
  | _ => ret tt
  end ;;;
  required_arguments
    [(given workspace, "--workspace/-w");
     (given project, "--project/-P");
     (negb required || has_action action, "repo_subcommand")] ;;;
  required_group (list_ || given repository)
                 ["--list/-l"; "--repository/-r"] ;;;
  ret (namespace inv (if alias then "repo" else "repository")
                 list_ workspace project repository
                 match action with
                 | NoAction => None
                 | Show _ => Some "show"
                 | Create _ => Some "create"
                 end
                 match action with Show o => o | _ => no_show end
                 match action with Create o => o | _ => no_create end).

(** [ArgumentParser.parse_known_args] of the top-level parser, whose
    subcommand is required ([subparsers.required = True]). *)
Definition parse_known_args (required : bool) (inv : Invocation)
    : M (Namespace * list string) :=
  ns <- match command inv with
        | NoCommand => argparse_error (MissingArguments ["subcommand"])
        | Tests =>
            ret (namespace inv "tests" false None None None None
                           no_show no_create)
        | WorkspaceCommand list_ workspace =>
            workspace_subparser inv list_ workspace
        | ProjectCommand workspace list_ project =>
            project_subparser inv workspace list_ project
        | RepositoryCommand alias workspace project list_ repository action =>
            repository_subparser required inv alias workspace project list_
                                 repository action
        end ;;
  ret (ns, unrecognized inv).

(** [ArgumentParser.parse_args]: [parse_known_args], then an error when
    tokens are left over. *)
Definition parse_args (required : bool) (inv : Invocation) : M Namespace :=
  r <- parse_known_args required inv ;;
  match snd r with
  | [] => ret (fst r)
  | extras => argparse_error (Unrecognized extras)
  end.

(** The end of [__create_repository_subparser]: a first parse, with the
    action not yet required, decides [subparser_subs.required]. *)
Definition __create_repository_subparser (inv : Invocation) : M bool :=
  temp_args <- parse_known_args false inv ;;
  let has_repo :=
    (args_subcommand (fst temp_args) =? "repository") ||
    (args_subcommand (fst temp_args) =? "repo") in
  let has_repo_name :=
    if has_repo then negb (is_None (args_repository (fst temp_args)))
    else false in
  ret has_repo_name.

(** [__get_parser]: the value is the parser's one varying attribute,
    [subparser_subs.required]. *)
Definition __get_parser (inv : Invocation) : M bool :=
  __create_repository_subparser inv.

(** ** The process environment *)

(** [os.environ], and what the user types when [getpass] asks. *)
Record Environ : Type := {
  BITBUCKET_USER : option string;
  BITBUCKET_PASSWORD : option string;
  typed_password : string
}.

Definition getpass (env : Environ) (prompt : string) : M string :=
  emit (Getpass prompt) ;;; ret (typed_password env).

(** ** class BitbucketCLI *)

Record BitbucketCLI : Type := {
  __args : Namespace;
  __for_scripting : bool;
  __username : option string;
  __password : option string
}.

Definition __args_verify_repo_show_actions (args : Namespace) : M unit :=
  (if args_links args then
     if negb (args_subcommand args =? "repository") &&
        negb (args_subcommand args =? "repo") then
       parser_error
         "Error: --links (-L) is only valid for repository operations."
     else if is_None (args_repository args) then
       parser_error "Error: --repository (-r) is required with --links (-L)."
     else ret tt
   else ret tt) ;;;
  (if args_https_url args then
     if negb (args_subcommand args =? "repository") &&
        negb (args_subcommand args =? "repo") then
       parser_error ("Error: --https-url (-u) " ++
                     "is only valid for repository operations.")
     else if is_None (args_repository args) then
       parser_error ("Error: --repository (-r) " ++
                     "is required with --https-url (-u).")
     else ret tt
   else ret tt) ;;;
  (if args_ssh_url args then
     if negb (args_subcommand args =? "repository") &&
        negb (args_subcommand args =? "repo") then
       parser_error ("Error: --ssh-url (-s) " ++
                     "is only valid for repository operations.")
     else if is_None (args_repository args) then
       parser_error
         "Error: --repository (-r) is required with --ssh-url (-s)."
     else ret tt
   else ret tt).

Definition __args_verify_repo_actions (args : Namespace) : M unit :=
  if py_eq (args_repo_subcommand args) "show" then
    __args_verify_repo_show_actions args
  else ret tt.

(** [__parse_arguments] fills [__args], [__username] and [__password]; its
    value here is these three. *)
Definition __parse_arguments (env : Environ) (inv : Invocation)
    : M (Namespace * option string * option string) :=
  required <- __get_parser inv ;;
  args <- parse_args required inv ;;
  let username := py_or (args_user args) (BITBUCKET_USER env) in
  let password := py_or (args_password args) (BITBUCKET_PASSWORD env) in
  (if (args_subcommand args =? "repository") ||
      (args_subcommand args =? "repo") then
     __args_verify_repo_actions args
   else ret tt) ;;;
  (if is_None username && negb (args_subcommand args =? "tests") then
     parser_error "Error: Bitbucket username is required."
   else ret tt) ;;;
  password <-
    (if is_None password && negb (args_subcommand args =? "tests") then
       typed <- getpass env "Enter Bitbucket password: " ;;
       ret (Some typed)
     else ret password) ;;
  ret (args, username, password).

(** [BitbucketCLI.__init__]: [__for_scripting] is set to [False] here and
    assigned nowhere else in the class. *)
Definition __init__ (env : Environ) (inv : Invocation) : M BitbucketCLI :=
  r <- __parse_arguments env inv ;;
  ret {| __args := fst (fst r);
         __for_scripting := false;
         __username := snd (fst r);
         __password := snd r |}.

Section Commands.

Variable sdk : Atlassian.
Variable self : BitbucketCLI.

(** The property [bbc]: the session is created on first use from the
    resolved credentials and kept; creating it makes no round trip. *)
Definition bbc : Cloud := Cloud_new sdk (__username self) (__password self).

Definition __list_workspaces : M unit :=
  for_each WorkspacesEach (workspaces_each bbc)
    (fun workspace =>
       print ("Workspace: " ++ ws_name workspace ++
              " (" ++ ws_slug workspace ++ ")")).

Definition __list_projects (workspace : Workspace) : M unit :=
  let prefix := "Project: " in
  let prefix := if __for_scripting self then "" else prefix in
  for_each (ProjectsEach workspace) (projects_each bbc workspace)
    (fun project =>
       print (prefix ++
              (pr_name project ++ " (" ++ pr_key project ++ ")"))).

Definition __list_repositories (project : Project) (workspace : Workspace)
    : M unit :=
  let prefix := "Repository: " in
  let suffix :=
    " in Project: " ++ pr_name project ++ " (" ++ pr_key project ++ ") in " in
  let suffix :=
    suffix ++
    ("Workspace: " ++ ws_name workspace ++ " (" ++ ws_slug workspace ++ ")") in
  let prefix := if __for_scripting self then "" else prefix in
  let suffix := if __for_scripting self then "" else suffix in
  for_each (RepositoriesEach project) (repositories_each bbc project)
    (fun repository =>
       print (prefix ++
              (repo_name repository ++
               " (" ++ repo_slug repository ++ ") in ") ++
              suffix)).

Definition __print_repository_links (repository : Repository) : M unit :=
  let prefix := "Link: " in
  let prefix := if __for_scripting self then "" else prefix in
  match repo_links repository with
  | None => raise (TypeError "'NoneType' object is not iterable")
  | Some links =>
      iterate (fun link => print (prefix ++
                                  (fst link ++ " -> " ++ lv_str (snd link))))
              links
  end.

Definition __print_repository_https_url (repository : Repository)
    : M unit :=
  if __for_scripting self then
    url <- https_url repository ;; print url
  else
    url <- https_url repository ;; print ("HTTPS URL: " ++ url).

Definition __print_repository_ssh_url (repository : Repository) : M unit :=
  if __for_scripting self then
    url <- ssh_url repository ;; print url
  else
    url <- ssh_url repository ;; print ("SSH URL: " ++ url).

Definition create_repository (project : pyobj Project)
    (workspace : pyobj Workspace) (repository_name : pyobj string)
    (is_private : option bool) (fork_policy : option string)
    : M Repository :=
  match project with
  | PyNone => raise (ValueError "project is None")
  | PyOther =>
      raise (TypeError
               "project is not an instance of BitbucketCLIProjectWrapper")
  | PyObj project =>
  match workspace with
  | PyNone => raise (ValueError "workspace is None")
  | PyOther =>
      raise (TypeError
               "workspace is not an instance of BitbucketCLIWorkspaceWrapper")
  | PyObj workspace =>
  match repository_name with
  | PyNone => raise (ValueError "repository_name is None")
  | PyOther => raise (TypeError "repository_name is not a string")
  | PyObj repository_name =>
  if match fork_policy with
     | None => false
     | Some policy =>
         negb (existsb (String.eqb policy) (FORK_POLICIES sdk))
     end
  then raise (ValueError "fork_policy is not a valid value")
  else
    repository <-
      remote (RepositoriesCreate workspace repository_name (pr_key project)
                                 is_private fork_policy)
             (repositories_create bbc workspace repository_name
                                  (pr_key project) is_private fork_policy) ;;
    BitbucketCLIRepositoryWrapper repository
  end end end.

Definition __create_repository (project : Project) (workspace : Workspace)
    : M unit :=
  let is_private := None in
  let is_private :=
    if args_public (__args self) then Some false else is_private in
  let is_private :=
    if args_private (__args self) then Some true else is_private in
  let fork_policy := None in
  let fork_policy :=
    if args_allow_forks (__args self) then Some (ALLOW_FORKS sdk)
    else if args_no_allow_forks (__args self) then Some (NO_FORKS sdk)
    else if args_no_public_forks (__args self) then
      Some (NO_PUBLIC_FORKS sdk)
    else fork_policy in
  let repository_slug :=
    match args_repository (__args self) with
    | None => PyNone
    | Some name => PyObj name
    end in
  repository <- create_repository (PyObj project) (PyObj workspace)
                                  repository_slug is_private fork_policy ;;
  if negb (__for_scripting self) then
    print ("Repository: " ++ repo_name repository ++ " created in " ++
           ("Project: " ++ pr_name project ++
            " in Workspace: " ++ ws_name workspace))
  else ret tt.

Definition repo_show_cmd (workspace : Workspace) (project : Project)
    (repository_name : string) : M unit :=
  repository <- project_getitem bbc project repository_name ;;
  (if negb (__for_scripting self) then
     print ("Repository: " ++ repo_name repository ++ " in " ++
            ("Project: " ++ pr_name project ++
             " in Workspace: " ++ ws_name workspace))
   else ret tt) ;;;
  (if args_links (__args self) then __print_repository_links repository
   else ret tt) ;;;
  (if args_https_url (__args self) then
     __print_repository_https_url repository
   else ret tt) ;;;
  (if args_ssh_url (__args self) then __print_repository_ssh_url repository
   else ret tt) ;;;
  (if negb (args_links (__args self)) &&
      negb (args_https_url (__args self)) &&
      negb (args_ssh_url (__args self)) then
     print_help
   else ret tt).

Definition repo_cmd : M unit :=
  match args_workspace (__args self) with
  | None =>
      parser_error
        "Error: --workspace (-w) is required for repository operations!"
  | Some workspace_name =>
  workspace <- bbc_getitem bbc workspace_name ;;
  match args_project (__args self) with
  | None =>
      parser_error
        "Error: --project (-P) is required for repository operations!"
  | Some project_name =>
  project <- workspace_getitem bbc workspace project_name ;;
  if args_list (__args self) then
    __list_repositories project workspace
  else
    match args_repository (__args self) with
    | Some repository_name =>
        if py_eq (args_repo_subcommand (__args self)) "show" then
          repo_show_cmd workspace project repository_name
        else if py_eq (args_repo_subcommand (__args self)) "create" then
          __create_repository project workspace
        else print_help
    | None => print_help
    end
  end end.

Definition project_cmd : M unit :=
  match args_workspace (__args self) with
  | None =>
      parser_error
        "Error: --workspace (-w) is required for project operations!"
  | Some workspace_name =>
  workspace <- bbc_getitem bbc workspace_name ;;
  if args_list (__args self) then
    __list_projects workspace
  else
    match args_project (__args self) with
    | Some project_name =>
        project <- workspace_getitem bbc workspace project_name ;;
        if negb (__for_scripting self) then
          print ("Project: " ++ pr_name project ++
                 " (" ++ pr_key project ++ ")")
        else ret tt
    | None => print_help
    end
  end.

Definition workspace_cmd : M unit :=
  if args_list (__args self) then
    __list_workspaces
  else
    match args_workspace (__args self) with
    | Some workspace_name =>
        workspace <- bbc_getitem bbc workspace_name ;;
        if negb (__for_scripting self) then
          print ("Workspace: " ++ ws_name workspace ++
                 " (" ++ ws_slug workspace ++ ")")
        else ret tt
    | None => print_help
    end.

Definition main_program : M unit :=
  if args_subcommand (__args self) =? "workspace" then workspace_cmd
  else if args_subcommand (__args self) =? "project" then project_cmd
  else if (args_subcommand (__args self) =? "repository") ||
          (args_subcommand (__args self) =? "repo") then repo_cmd
  else print_help.

End Commands.

(** [main()]. *)
Definition main (sdk : Atlassian) (env : Environ) (inv : Invocation)
    : M unit :=
  bitbucket_cli <- __init__ env inv ;;
  if args_subcommand (__args bitbucket_cli) =? "tests" then emit RunTests
  else main_program sdk bitbucket_cli.

(** ** Observations on a run *)

Definition remote_calls (t : list event) : list call :=
  flat_map (fun e => match e with Remote c => [c] | _ => [] end) t.

Definition stdout (t : list event) : list string :=
  flat_map (fun e => match e with Print line => [line] | _ => [] end) t.

(** What reaches standard error: the reports of argparse and of
    [parser.error]. *)
Definition stderr (t : list event) : list event :=
  filter (fun e => match e with
                   | ArgparseError _ | ParserError _ => true
                   | _ => false
                   end) t.

Definition prompts (t : list event) : list string :=
  flat_map (fun e => match e with Getpass p => [p] | _ => [] end) t.

Definition create_calls (t : list event) : list call :=
  filter (fun c => match c with
                   | RepositoriesCreate _ _ _ _ _ => true
                   | _ => false
                   end) (remote_calls t).

(** A fatal argument error: a report on standard error, exit status 2, and
    neither a round trip to the SDK nor a line on standard output. *)
Definition fatal_argument_error {A : Type} (m : M A) : Prop :=
  exit_status m = 2%Z /\
  (exists e, stderr (trace m) = [e]) /\
  remote_calls (trace m) = [] /\
  stdout (trace m) = [].

(** The namespace argparse builds for an invocation it accepts.  (Without a
    subcommand nothing is accepted; the value there is never used.) *)
Definition namespace_of (inv : Invocation) : Namespace :=
  match command inv with
  | NoCommand | Tests =>
      namespace inv "tests" false None None None None no_show no_create
  | WorkspaceCommand list_ workspace =>
      namespace inv "workspace" list_ workspace None None None
                no_show no_create
  | ProjectCommand workspace list_ project =>
      namespace inv "project" list_ workspace project None None
                no_show no_create
  | RepositoryCommand alias workspace project list_ repository action =>
      namespace inv (if alias then "repo" else "repository")
                list_ workspace project repository
                match action with
                | NoAction => None
                | Show _ => Some "show"
                | Create _ => Some "create"
                end
                match action with Show o => o | _ => no_show end
                match action with Create o => o | _ => no_create end
  end.

Definition is_tests (c : Command) : bool :=
  match c with
  | Tests => true
  | _ => false
  end.

(** The password [__parse_arguments] ends with when it returns. *)
Definition resolved_password (env : Environ) (inv : Invocation)
    : option string :=
  match py_or (opt_password inv) (BITBUCKET_PASSWORD env) with
  | Some p => Some p
  | None => if is_tests (command inv) then None
            else Some (typed_password env)
  end.

Definition resolved_username (env : Environ) (inv : Invocation)
    : option string :=
  py_or (opt_user inv) (BITBUCKET_USER env).

(** The session the commands of an invocation talk to. *)
Definition session (sdk : Atlassian) (env : Environ) (inv : Invocation)
    : Cloud :=
  Cloud_new sdk (resolved_username env inv) (resolved_password env inv).

(** ** The two halves of [__parse_arguments]

    [validate] is the part that looks at the command line only (lines
    307-316 of the source); [resolve] is the part that settles the
    credentials (lines 312-313 and 318-322). *)

Definition validate (inv : Invocation) : M Namespace :=
  required <- __get_parser inv ;;
  args <- parse_args required inv ;;
  (if (args_subcommand args =? "repository") ||
      (args_subcommand args =? "repo") then
     __args_verify_repo_actions args
   else ret tt) ;;;
  ret args.

Definition resolve (env : Environ) (args : Namespace)
    : M (Namespace * option string * option string) :=
  let username := py_or (args_user args) (BITBUCKET_USER env) in
  let password := py_or (args_password args) (BITBUCKET_PASSWORD env) in
  (if is_None username && negb (args_subcommand args =? "tests") then
     parser_error "Error: Bitbucket username is required."
   else ret tt) ;;;
  password <-
    (if is_None password && negb (args_subcommand args =? "tests") then
       typed <- getpass env "Enter Bitbucket password: " ;;
       ret (Some typed)
     else ret password) ;;
  ret (args, username, password).

(** The value [__create_repository_subparser] gives to
    [subparser_subs.required]. *)
Definition has_repo_name (inv : Invocation) : bool :=
  match command inv with
  | RepositoryCommand _ _ _ _ repository _ => given repository
  | _ => false
  end.

(** The prompt of a run that reaches the password step. *)
Definition password_prompt (env : Environ) (inv : Invocation) : list event :=
  if is_None (py_or (opt_password inv) (BITBUCKET_PASSWORD env)) &&
     negb (is_tests (command inv))
  then [Getpass "Enter Bitbucket password: "] else [].

(** The object [__init__] leaves when it returns. *)
Definition constructed (env : Environ) (inv : Invocation) : BitbucketCLI :=
  {| __args := namespace_of inv;
     __for_scripting := false;
     __username := resolved_username env inv;
     __password := resolved_password env inv |}.

(** ** Invocations the statements speak about *)

Definition with_command (c : Command) (inv : Invocation) : Invocation :=
  {| opt_user := opt_user inv;
     opt_password := opt_password inv;
     opt_for_scripting := opt_for_scripting inv;
     command := c;
     unrecognized := unrecognized inv |}.

Definition with_for_scripting (b : bool) (inv : Invocation) : Invocation :=
  {| opt_user := opt_user inv;
     opt_password := opt_password inv;
     opt_for_scripting := b;
     command := command inv;
     unrecognized := unrecognized inv |}.

Definition any_detail (o : ShowOptions) : bool :=
  opt_links o || opt_https_url o || opt_ssh_url o.

(** The spellings of the three detail flags of [show]. *)
Definition detail_token (token : string) : bool :=
  existsb (String.eqb token)
          ["--links"; "-L"; "--https-url"; "-u"; "--ssh-url"; "-s"].

(** A detail flag is set although no repository was named, or it was typed
    where the parsers of the chosen subcommand do not know it (any place but
    after [repository ... show]). *)
Definition detail_flag_misplaced (inv : Invocation) : bool :=
  match command inv with
  | RepositoryCommand _ _ _ _ repository (Show o) =>
      any_detail o && is_None repository
  | _ => false
  end || existsb detail_token (unrecognized inv).

(** An empty [--user] or [--password] value replaced by no flag at all. *)
Definition blank_as_absent (inv : Invocation) : Invocation :=
  {| opt_user := if truthy (opt_user inv) then opt_user inv else None;
     opt_password :=
       if truthy (opt_password inv) then opt_password inv else None;
     opt_for_scripting := opt_for_scripting inv;
     command := command inv;
     unrecognized := unrecognized inv |}.

(** A command line with no global flag and no stray token. *)
Definition plain (c : Command) : Invocation :=
  {| opt_user := None;
     opt_password := None;
     opt_for_scripting := false;
     command := c;
     unrecognized := [] |}.

Definition show_links : ShowOptions :=
  {| opt_links := true; opt_https_url := false; opt_ssh_url := false |}.

(** [create --private --no-allow-forks]. *)
Definition private_no_forks : CreateOptions :=
  {| opt_public := false; opt_private := true; opt_allow_forks := false;
     opt_no_allow_forks := true; opt_no_public_forks := false |}.

(** ** A sample account

    Two workspaces, one project, one repository; the session answers the same
    whatever the credentials. *)

Definition teamA : Workspace := {| ws_name := "teamA"; ws_slug := "team-a" |}.

Definition teamB : Workspace := {| ws_name := "teamB"; ws_slug := "team-b" |}.

Definition tools : Project := {| pr_name := "Tools"; pr_key := "TL" |}.

Definition cli_repo : Repository :=
  {| repo_name := "cli";
     repo_slug := "cli";
     repo_links :=
       Some [("clone",
              {| lv_str := "[https, ssh]";
                 lv_hrefs := [Some "https://bitbucket.org/team-a/cli.git";
                              Some "git@bitbucket.org:team-a/cli.git"] |})] |}.

Definition sample_cloud : Cloud :=
  {| workspaces_each := {| items := [teamA; teamB]; fault := None |};
     workspaces_get := fun key =>
       if key =? "team-a" then Reply (PyObj teamA) else Fault "404";
     projects_each := fun _ => {| items := [tools]; fault := None |};
     projects_get := fun _ key =>
       if key =? "TL" then Reply (PyObj tools) else Fault "404";
     repositories_each := fun _ => {| items := [cli_repo]; fault := None |};
     repositories_get := fun _ key =>
       if key =? "cli" then Reply (PyObj cli_repo) else Fault "404";
     repositories_create := fun _ name _ _ _ =>
       Reply (PyObj {| repo_name := name; repo_slug := name;
                       repo_links := None |}) |}.

Definition sample_sdk : Atlassian :=
  {| ALLOW_FORKS := "allow_forks";
     NO_PUBLIC_FORKS := "no_public_forks";
     NO_FORKS := "no_forks";
     Cloud_new := fun _ _ => sample_cloud |}.

(** Both credentials in the environment. *)
Definition sample_env : Environ :=
  {| BITBUCKET_USER := Some "bob";
     BITBUCKET_PASSWORD := Some "secret";
     typed_password := "typed" |}.

(** No credential in the environment. *)
Definition bare_env : Environ :=
  {| BITBUCKET_USER := None;
     BITBUCKET_PASSWORD := None;
     typed_password := "typed" |}.

(** ** Sample command lines *)

(** [repository -w team-a -P TL --list show --links]. *)
Definition list_show_links : Invocation :=
  plain (RepositoryCommand false (Some "team-a") (Some "TL") true None
                           (Show show_links)).

(** [--user alice --password hunter2 workspace --list]. *)
Definition with_both_flags : Invocation :=
  {| opt_user := Some "alice";
     opt_password := Some "hunter2";
     opt_for_scripting := false;
     command := WorkspaceCommand true None;
     unrecognized := [] |}.

(** [--user '' workspace --list]. *)
Definition with_empty_user : Invocation :=
  {| opt_user := Some "";
     opt_password := None;
     opt_for_scripting := false;
     command := WorkspaceCommand true None;
     unrecognized := [] |}.

(** [--user '' --password '' workspace --list]. *)
Definition with_empty_flags : Invocation :=
  {| opt_user := Some "";
     opt_password := Some "";
     opt_for_scripting := false;
     command := WorkspaceCommand true None;
     unrecognized := [] |}.

(** A user name in the environment, no password. *)
Definition user_only_env : Environ :=
  {| BITBUCKET_USER := Some "bob";
     BITBUCKET_PASSWORD := None;
     typed_password := "typed" |}.

(** An object of the class, for calls of its public methods. *)
Definition sample_cli : BitbucketCLI :=
  constructed sample_env (plain (WorkspaceCommand true None)).

(** [repository|repo -w W -P P ...]: the command line [inv] with its
    subcommand replaced by a repository command on workspace [w] and project
    [p]. *)
Definition repository_line (inv : Invocation) (alias : bool) (w p : string)
    (list_ : bool) (repository : option string) (action : Action)
    : Invocation :=
  with_command
    (RepositoryCommand alias (Some w) (Some p) list_ repository action) inv.

(** [repository -w team-a -P TL --list]. *)
Definition list_only : Invocation :=
  plain (RepositoryCommand false (Some "team-a") (Some "TL") true None
                           NoAction).

(** [repository|repo -w W -P P -r R show], no detail flag. *)
Definition show_line (inv : Invocation) (alias : bool) (w p r : string)
    : Invocation :=
  repository_line inv alias w p false (Some r) (Show no_show).

(** [repository|repo -w W -P P -r R create --private --no-allow-forks]. *)
Definition create_line (inv : Invocation) (alias : bool) (w p r : string)
    : Invocation :=
  repository_line inv alias w p false (Some r) (Create private_no_forks).

(** [--for-scripting workspace --list]. *)
Definition scripting_workspace_list : Invocation :=
  with_for_scripting true (plain (WorkspaceCommand true None)).

(** [--for-scripting project -w team-a --list]. *)
Definition scripting_project_list : Invocation :=
  with_for_scripting true (plain (ProjectCommand (Some "team-a") true None)).

(** [--for-scripting repository -w team-a -P TL --list]. *)
Definition scripting_repository_list : Invocation :=
  with_for_scripting true list_only.

(** [--for-scripting workspace --workspace team-a]. *)
Definition scripting_workspace_named : Invocation :=
  with_for_scripting true (plain (WorkspaceCommand false (Some "team-a"))).

(** [--for-scripting project -w team-a --project TL]. *)
Definition scripting_project_named : Invocation :=
  with_for_scripting true
    (plain (ProjectCommand (Some "team-a") false (Some "TL"))).

(** [--for-scripting repository -w team-a -P TL -r newrepo create --private
    --no-allow-forks]. *)
Definition scripting_create : Invocation :=
  with_for_scripting true
    (create_line (plain Tests) false "team-a" "TL" "newrepo").

(** The object [self] with [__for_scripting] forced to a value, which no
    run of the program does. *)
Definition forced_scripting (b : bool) (self : BitbucketCLI) : BitbucketCLI :=
  {| __args := __args self;
     __for_scripting := b;
     __username := __username self;
     __password := __password self |}.

(** ** The command grammar as a decision

    What the declarations of [__get_parser] (required options, mutually
    exclusive groups, the action made required by a named repository) and
    the checks of [__args_verify_repo_show_actions] add up to. *)

Definition at_most_one (flags : list bool) : bool :=
  Nat.leb (length (filter (fun b : bool => b) flags)) 1.

Definition well_formed_action (repository : option string) (action : Action)
    : bool :=
  match action with
  | NoAction => is_None repository
  | Show o => negb (any_detail o) || given repository
  | Create o =>
      at_most_one [opt_public o; opt_private o] &&
      at_most_one [opt_allow_forks o; opt_no_allow_forks o;
                   opt_no_public_forks o]
  end.

Definition well_formed (inv : Invocation) : bool :=
  match unrecognized inv with
  | [] =>
      match command inv with
      | NoCommand => false
      | Tests => true
      | WorkspaceCommand list_ workspace => xorb list_ (given workspace)
      | ProjectCommand workspace list_ project =>
          given workspace && xorb list_ (given project)
      | RepositoryCommand _ workspace project list_ repository action =>
          given workspace && given project &&
          xorb list_ (given repository) &&
          well_formed_action repository action
      end
  | _ :: _ => false
  end.

(** ** Kinds of events *)

Definition is_remote (e : event) : bool :=
  match e with
  | Remote _ => true
  | _ => false
  end.

Definition is_print (e : event) : bool :=
  match e with
  | Print _ => true
  | _ => false
  end.

Definition is_report (e : event) : bool :=
  match e with
  | ArgparseError _ | ParserError _ => true
  | _ => false
  end.

Definition is_create (e : event) : bool :=
  match e with
  | Remote (RepositoriesCreate _ _ _ _ _) => true
  | _ => false
  end.

(** A computation none of whose events is of the kind [kind]. *)
Definition without {A : Type} (kind : event -> bool) (m : M A) : Prop :=
  forallb (fun e => negb (kind e)) (trace m) = true.

(** A computation that does not end in [SystemExit]. *)
Definition no_exit {A : Type} (m : M A) : Prop :=
  forall code, outcome m <> inl (SystemExit code).

(** The number of round trips to the SDK. *)
Definition round_trips {A : Type} (m : M A) : nat :=
  length (remote_calls (trace m)).


(** The command line asks for a creation: [repository ... -r NAME create]. *)
Definition asks_create (inv : Invocation) : bool :=
  match command inv with
  | RepositoryCommand _ _ _ false (Some _) (Create _) => true
  | _ => false
  end.

(** The ancestor suffix [__list_repositories] builds in human mode. *)
Definition ancestors (project : Project) (workspace : Workspace) : string :=
  (" in Project: " ++ pr_name project ++ " (" ++ pr_key project ++ ") in ") ++
  ("Workspace: " ++ ws_name workspace ++ " (" ++ ws_slug workspace ++ ")").

(** An SDK whose workspace lookup hands back [None]. *)
Definition absent_sdk : Atlassian :=
  {| ALLOW_FORKS := "allow_forks";
     NO_PUBLIC_FORKS := "no_public_forks";
     NO_FORKS := "no_forks";
     Cloud_new := fun _ _ =>
       {| workspaces_each := workspaces_each sample_cloud;
          workspaces_get := fun _ => Reply PyNone;
          projects_each := projects_each sample_cloud;
          projects_get := projects_get sample_cloud;
          repositories_each := repositories_each sample_cloud;
          repositories_get := repositories_get sample_cloud;
          repositories_create := repositories_create sample_cloud |} |}.

Definition is_help (e : event) : bool :=
  match e with
  | PrintHelp => true
  | _ => false
  end.

(** The lines [__print_repository_links] prints in human mode. *)
Definition link_lines (links : list (string * LinkValue)) : list string :=
  map (fun link => "Link: " ++ (fst link ++ " -> " ++ lv_str (snd link)))
      links.

(** The object of [repository -w team-a -P TL -r cli show]. *)
Definition show_cli : BitbucketCLI :=
  constructed sample_env (show_line (plain Tests) false "team-a" "TL" "cli").

(** The object of [repository -w team-a -P TL -r cli show -L -u -s]. *)
Definition show_all_cli : BitbucketCLI :=
  constructed sample_env
    (repository_line (plain Tests) false "team-a" "TL" false (Some "cli")
       (Show {| opt_links := true; opt_https_url := true;
                opt_ssh_url := true |})).

(** The header line of [repo_show_cmd] in human mode. *)
Definition show_header (repository : Repository) (project : Project)
    (workspace : Workspace) : string :=
  "Repository: " ++ repo_name repository ++ " in " ++
  ("Project: " ++ pr_name project ++ " in Workspace: " ++ ws_name workspace).

(** A repository whose data holds no links. *)
Definition bare_repo : Repository :=
  {| repo_name := "bare"; repo_slug := "bare"; repo_links := None |}.

(** A repository with a single clone link. *)
Definition https_only_repo : Repository :=
  {| repo_name := "one"; repo_slug := "one";
     repo_links :=
       Some [("clone",
              {| lv_str := "[https]";
                 lv_hrefs := [Some "https://bitbucket.org/team-a/one.git"] |})]
  |}.

(** What the flags of [create] choose, read off [__create_repository]:
    [--private] wins over [--public], and the fork flags are tried in the
    order allow, no-allow, no-public. *)
Definition chosen_visibility (o : CreateOptions) : option bool :=
  if opt_private o then Some true
  else if opt_public o then Some false
  else None.

Definition chosen_policy (sdk : Atlassian) (o : CreateOptions)
    : option string :=
  if opt_allow_forks o then Some (ALLOW_FORKS sdk)
  else if opt_no_allow_forks o then Some (NO_FORKS sdk)
  else if opt_no_public_forks o then Some (NO_PUBLIC_FORKS sdk)
  else None.

(** An SDK whose hosting service rejects every creation. *)
Definition refusing_sdk : Atlassian :=
  {| ALLOW_FORKS := "allow_forks";
     NO_PUBLIC_FORKS := "no_public_forks";
     NO_FORKS := "no_forks";
     Cloud_new := fun _ _ =>
       {| workspaces_each := workspaces_each sample_cloud;
          workspaces_get := workspaces_get sample_cloud;
          projects_each := projects_each sample_cloud;
          projects_get := projects_get sample_cloud;
          repositories_each := repositories_each sample_cloud;
          repositories_get := repositories_get sample_cloud;
          repositories_create := fun _ _ _ _ _ => Fault "400" |} |}.

Definition is_prompt (e : event) : bool :=
  match e with
  | Getpass _ => true
  | _ => false
  end.

(** * Properties *)

(** ** The effect monad *)

Lemma bind_ret {A B : Type} (a : A) (k : A -> M B) : bind (ret a) k = k a.
Proof. unfold bind, ret. destruct (k a) as [t r]. reflexivity. Qed.

Lemma bind_value {A B : Type} (t : list event) (a : A) (k : A -> M B) :
  bind (t, inr a) k = ((t ++ trace (k a))%list, outcome (k a)).
Proof. unfold bind, trace, outcome. destruct (k a). reflexivity. Qed.

Lemma bind_assoc {A B C : Type} (m : M A) (f : A -> M B) (g : B -> M C) :
  bind (bind m f) g = bind m (fun x => bind (f x) g).
Proof.
  destruct m as [t [e | a]]; [reflexivity |].
  unfold bind at 2 3. destruct (f a) as [t1 [e1 | b]]; [reflexivity |].
  simpl. destruct (g b) as [t2 r2]. now rewrite app_assoc.
Qed.

(** ** argparse either accepts an invocation, with a determined namespace,
    or reports one violation and exits with status 2 *)

Lemma create_subparser_cases (o : CreateOptions) :
  create_subparser o = ret tt \/
  exists e, create_subparser o = argparse_error e.
Proof.
  destruct o as [[] [] [] [] []]; vm_compute; eauto.
Qed.

Lemma parse_known_args_cases (required : bool) (inv : Invocation) :
  parse_known_args required inv = ret (namespace_of inv, unrecognized inv) \/
  exists e, parse_known_args required inv = argparse_error e.
Proof.
  destruct inv as [user password scripting cmd extras].
  destruct cmd as [ | | list_ w | w list_ p | alias w p list_ r action].
  - right. eexists. reflexivity.
  - left. reflexivity.
  - destruct list_, w; vm_compute; eauto.
  - destruct list_, w, p; vm_compute; eauto.
  - unfold parse_known_args, repository_subparser; cbn [command].
    destruct list_, r; try (right; eexists; reflexivity);
      (destruct action as [ | o | o];
       [ destruct required, w, p; vm_compute; eauto
       | destruct required, w, p; vm_compute; eauto
       | destruct (create_subparser_cases o) as [-> | [e ->]];
         [ destruct required, w, p; vm_compute; eauto
         | right; eexists; reflexivity ] ]).
Qed.

Lemma parse_args_cases (required : bool) (inv : Invocation) :
  parse_args required inv = ret (namespace_of inv) \/
  exists e, parse_args required inv = argparse_error e.
Proof.
  unfold parse_args.
  destruct (parse_known_args_cases required inv) as [-> | [e ->]].
  - rewrite bind_ret. cbn [fst snd].
    destruct (unrecognized inv); [now left | right; eauto].
  - right. exists e. reflexivity.
Qed.

Lemma verify_show_cases (args : Namespace) :
  __args_verify_repo_show_actions args = ret tt \/
  exists msg, __args_verify_repo_show_actions args = parser_error msg.
Proof.
  unfold __args_verify_repo_show_actions.
  destruct (args_links args), (args_https_url args), (args_ssh_url args),
    (negb (args_subcommand args =? "repository") &&
     negb (args_subcommand args =? "repo")),
    (is_None (args_repository args));
    cbn; eauto.
Qed.

Lemma verify_cases (args : Namespace) :
  __args_verify_repo_actions args = ret tt \/
  exists msg, __args_verify_repo_actions args = parser_error msg.
Proof.
  unfold __args_verify_repo_actions.
  destruct (py_eq _ _); [apply verify_show_cases | now left].
Qed.

Lemma get_parser_cases (inv : Invocation) :
  __get_parser inv = ret (has_repo_name inv) \/
  exists e, __get_parser inv = argparse_error e.
Proof.
  unfold __get_parser, __create_repository_subparser.
  destruct (parse_known_args_cases false inv) as [-> | [e ->]].
  - left. rewrite bind_ret. cbn [fst]. f_equal.
    destruct inv as [u pw sc [ | | l w | w l p | [] w p l [r |] a] ex];
      reflexivity.
  - right. exists e. reflexivity.
Qed.

Lemma subcommand_tests (inv : Invocation) :
  command inv <> NoCommand ->
  (args_subcommand (namespace_of inv) =? "tests") = is_tests (command inv).
Proof.
  destruct inv as [u pw sc [ | | l w | w l p | [] w p l r a] ex];
    cbn; congruence.
Qed.

Lemma parse_args_NoCommand (required : bool) (inv : Invocation) :
  command inv = NoCommand ->
  parse_args required inv = argparse_error (MissingArguments ["subcommand"]).
Proof.
  intros H. unfold parse_args, parse_known_args. now rewrite H.
Qed.

Lemma namespace_globals (inv : Invocation) :
  args_user (namespace_of inv) = opt_user inv /\
  args_password (namespace_of inv) = opt_password inv /\
  args_for_scripting (namespace_of inv) = opt_for_scripting inv.
Proof.
  unfold namespace_of. destruct (command inv); repeat split.
Qed.

(** ** [__parse_arguments] is validation followed by resolution *)

Lemma parse_arguments_split (env : Environ) (inv : Invocation) :
  __parse_arguments env inv = bind (validate inv) (resolve env).
Proof.
  unfold __parse_arguments, validate.
  destruct (get_parser_cases inv) as [-> | [e ->]]; [| reflexivity].
  rewrite !bind_ret.
  destruct (parse_args_cases (has_repo_name inv) inv) as [-> | [e ->]];
    [| reflexivity].
  rewrite !bind_ret, bind_assoc.
  destruct (if _ : bool then _ else _) as [t [e | []]]; [reflexivity |].
  rewrite !bind_value, bind_ret. reflexivity.
Qed.

Lemma validate_cases (inv : Invocation) :
  (validate inv = ret (namespace_of inv) /\
   unrecognized inv = [] /\ command inv <> NoCommand) \/
  (exists e, validate inv = argparse_error e) \/
  (exists msg, validate inv = parser_error msg).
Proof.
  unfold validate.
  destruct (get_parser_cases inv) as [-> | [e ->]];
    [| right; left; eexists; reflexivity].
  rewrite bind_ret.
  destruct (command inv) eqn:Hc.
  1: { right; left. rewrite parse_args_NoCommand by assumption.
       eexists; reflexivity. }
  all: assert (Hn : command inv <> NoCommand) by congruence.
  all: assert (Hx : parse_args (has_repo_name inv) inv = ret (namespace_of inv)
                    -> unrecognized inv = []).
  all: try (unfold parse_args;
            destruct (parse_known_args_cases (has_repo_name inv) inv)
              as [-> | [e ->]];
            [ rewrite bind_ret; cbn [fst snd];
              destruct (unrecognized inv); [reflexivity | discriminate]
            | discriminate ]).
  all: destruct (parse_args_cases (has_repo_name inv) inv) as [Hp | [e ->]];
    [ specialize (Hx Hp); rewrite Hp | right; left; eexists; reflexivity ].
  all: rewrite bind_ret.
  all: destruct (_ || _);
    [ destruct (verify_cases (namespace_of inv)) as [-> | [msg ->]];
      [| right; right; eexists; reflexivity] | ].
  all: left; split; [reflexivity | split; [assumption | discriminate]].
Qed.

Lemma resolve_namespace_of (env : Environ) (inv : Invocation) :
  command inv <> NoCommand ->
  resolve env (namespace_of inv) =
    if is_None (resolved_username env inv) && negb (is_tests (command inv))
    then parser_error "Error: Bitbucket username is required."
    else (password_prompt env inv,
          inr (namespace_of inv, resolved_username env inv,
               resolved_password env inv)).
Proof.
  intros Hn. unfold resolve.
  destruct (namespace_globals inv) as (Hu & Hp & _).
  rewrite (subcommand_tests inv Hn), Hu, Hp.
  fold (resolved_username env inv).
  unfold password_prompt, resolved_password.
  destruct (is_None (resolved_username env inv) && _); [reflexivity |].
  rewrite bind_ret.
  destruct (py_or (opt_password inv) (BITBUCKET_PASSWORD env));
    destruct (is_tests (command inv)); reflexivity.
Qed.

(** [__init__] on an invocation that passes validation. *)
Lemma init_validated (env : Environ) (inv : Invocation) :
  validate inv = ret (namespace_of inv) ->
  command inv <> NoCommand ->
  __init__ env inv =
    if is_None (resolved_username env inv) && negb (is_tests (command inv))
    then parser_error "Error: Bitbucket username is required."
    else (password_prompt env inv, inr (constructed env inv)).
Proof.
  intros Hv Hn. unfold __init__.
  rewrite parse_arguments_split, Hv, bind_ret, resolve_namespace_of by exact Hn.
  destruct (_ && _); [reflexivity |].
  rewrite bind_value. cbn. now rewrite app_nil_r.
Qed.

(** [__init__] on an invocation that validation rejects. *)
Lemma init_rejected (env : Environ) (inv : Invocation) (t : list event)
    (e : exn) :
  validate inv = (t, inl e) -> __init__ env inv = (t, inl e).
Proof.
  intros Hv. unfold __init__. now rewrite parse_arguments_split, Hv.
Qed.

Lemma main_rejected (sdk : Atlassian) (env : Environ) (inv : Invocation)
    (t : list event) (e : exn) :
  __init__ env inv = (t, inl e) -> main sdk env inv = (t, inl e).
Proof. intros H. unfold main. now rewrite H. Qed.

(** ** Fatal argument errors *)

Lemma fatal_argparse_error {A : Type} (e : grammar_error) :
  fatal_argument_error (@argparse_error A e).
Proof. repeat split. now exists (ArgparseError e). Qed.

Lemma fatal_parser_error {A : Type} (msg : string) :
  fatal_argument_error (@parser_error A msg).
Proof. repeat split. now exists (ParserError msg). Qed.

Lemma main_validation_failure (sdk : Atlassian) (env : Environ)
    (inv : Invocation) :
  (exists e, validate inv = argparse_error e) \/
  (exists msg, validate inv = parser_error msg) ->
  fatal_argument_error (main sdk env inv).
Proof.
  intros [[e H] | [msg H]];
    rewrite (main_rejected sdk env inv _ _ (init_rejected env inv _ _ H)).
  - apply @fatal_argparse_error.
  - apply @fatal_parser_error.
Qed.

Lemma validated_show_names_repository (inv : Invocation) :
  validate inv = ret (namespace_of inv) ->
  unrecognized inv = [] ->
  detail_flag_misplaced inv = false.
Proof.
  unfold detail_flag_misplaced. intros Hv ->. cbn [existsb].
  rewrite orb_false_r.
  destruct inv as [u pw sc cmd ex].
  destruct cmd as [ | | l w | w l p | alias w p l r [ | o | o]];
    try reflexivity.
  cbn [command]. destruct r as [r |]; [apply andb_false_r |].
  rewrite andb_true_r. unfold any_detail.
  destruct o as [[] [] []]; try reflexivity;
    destruct alias, w, p, l, ex; vm_compute in Hv; discriminate Hv.
Qed.

(** C4.  A detail flag of [show] ([--links], [--https-url], [--ssh-url])
    that is set without a named repository, or typed outside
    [repository ... show], ends the run with a fatal argument error: one
    report on standard error, exit status 2, no round trip to the SDK. *)
Theorem C4_misplaced_detail_flag_is_fatal (sdk : Atlassian) (env : Environ)
    (inv : Invocation) :
  detail_flag_misplaced inv = true ->
  fatal_argument_error (main sdk env inv).
Proof.
  intros Hm.
  destruct (validate_cases inv) as [(Hv & Hx & _) | Hrej].
  - rewrite (validated_show_names_repository inv Hv Hx) in Hm. discriminate.
  - now apply main_validation_failure.
Qed.

Lemma C4_misplaced_detail_flag_is_fatal_witness :
  detail_flag_misplaced list_show_links = true /\
  fatal_argument_error (main sample_sdk sample_env list_show_links).
Proof.
  split; [reflexivity |].
  apply C4_misplaced_detail_flag_is_fatal. reflexivity.
Defined.

(** ** Missing credentials *)

Lemma main_validated (sdk : Atlassian) (env : Environ) (inv : Invocation) :
  validate inv = ret (namespace_of inv) ->
  command inv <> NoCommand ->
  main sdk env inv =
    if is_None (resolved_username env inv) && negb (is_tests (command inv))
    then parser_error "Error: Bitbucket username is required."
    else
      bind (password_prompt env inv, inr (constructed env inv))
           (fun cli =>
              if is_tests (command inv) then emit RunTests
              else main_program sdk cli).
Proof.
  intros Hv Hn. unfold main. rewrite (init_validated env inv Hv Hn).
  destruct (_ && _); [reflexivity |].
  rewrite !bind_value. cbn [__args constructed].
  now rewrite (subcommand_tests inv Hn).
Qed.

Lemma tests_validated (inv : Invocation) :
  command inv = Tests -> unrecognized inv = [] ->
  validate inv = ret (namespace_of inv).
Proof.
  destruct inv as [u pw sc cmd ex]; cbn. intros -> ->. reflexivity.
Qed.

(** C8.  Without a username in the flag and in the environment, every
    invocation of a subcommand other than [tests] ends with a fatal argument
    error, before any prompt: the report is the missing-username message,
    unless the command line is one that is rejected whatever the credentials.
    The [tests] subcommand never prompts, and with nothing unrecognized on
    its command line it runs the tests with no credential at all. *)
Theorem C8_username_required_except_for_tests (sdk : Atlassian)
    (env : Environ) (inv : Invocation) :
  (is_tests (command inv) = false ->
   opt_user inv = None -> BITBUCKET_USER env = None ->
   fatal_argument_error (main sdk env inv) /\
   prompts (trace (main sdk env inv)) = [] /\
   (stderr (trace (main sdk env inv)) =
      [ParserError "Error: Bitbucket username is required."] \/
    forall env', fatal_argument_error (main sdk env' inv))) /\
  (is_tests (command inv) = true ->
   prompts (trace (main sdk env inv)) = [] /\
   (unrecognized inv = [] -> main sdk env inv = emit RunTests)).
Proof.
  split.
  - intros Ht Hu He.
    destruct (validate_cases inv) as [(Hv & _ & Hn) | Hrej].
    + assert (Hm : main sdk env inv =
                   parser_error "Error: Bitbucket username is required.").
      { rewrite (main_validated sdk env inv Hv Hn).
        unfold resolved_username. now rewrite Hu, He, Ht. }
      rewrite Hm.
      split; [apply @fatal_parser_error | split; [| left]; reflexivity].
    + split; [now apply main_validation_failure |].
      split; [| right; intros env'; now apply main_validation_failure].
      destruct Hrej as [[e H] | [msg H]];
        now rewrite (main_rejected sdk env inv _ _ (init_rejected env inv _ _ H)).
  - intros Ht. split.
    + destruct (validate_cases inv) as [(Hv & _ & Hn) | [[e H] | [msg H]]].
      * rewrite (main_validated sdk env inv Hv Hn).
        unfold password_prompt. rewrite Ht, !andb_false_r. reflexivity.
      * now rewrite (main_rejected sdk env inv _ _ (init_rejected env inv _ _ H)).
      * now rewrite (main_rejected sdk env inv _ _ (init_rejected env inv _ _ H)).
    + intros Hx.
      assert (Hc : command inv = Tests) by (destruct (command inv); easy).
      rewrite (main_validated sdk env inv (tests_validated inv Hc Hx))
        by congruence.
      unfold password_prompt. rewrite Ht, !andb_false_r. reflexivity.
Qed.

Lemma C8_username_required_except_for_tests_witness :
  (fatal_argument_error
     (main sample_sdk bare_env (plain (WorkspaceCommand true None))) /\
   stderr (trace (main sample_sdk bare_env
                       (plain (WorkspaceCommand true None)))) =
     [ParserError "Error: Bitbucket username is required."]) /\
  main sample_sdk bare_env (plain Tests) = emit RunTests.
Proof.
  split.
  - destruct (C8_username_required_except_for_tests
                sample_sdk bare_env (plain (WorkspaceCommand true None)))
      as [H _].
    destruct (H eq_refl eq_refl eq_refl) as (Hf & _ & _).
    split; [exact Hf | reflexivity].
  - destruct (C8_username_required_except_for_tests
                sample_sdk bare_env (plain Tests)) as [_ H].
    destruct (H eq_refl) as [_ Hr]. exact (Hr eq_refl).
Defined.

(** ** The global flags play no part in validation *)

Lemma parse_known_args_same (required : bool) (inv inv' : Invocation) :
  command inv = command inv' ->
  (parse_known_args required inv = ret (namespace_of inv, unrecognized inv) /\
   parse_known_args required inv' =
     ret (namespace_of inv', unrecognized inv')) \/
  exists e, parse_known_args required inv = argparse_error e /\
            parse_known_args required inv' = argparse_error e.
Proof.
  destruct inv as [u pw sc cmd ex], inv' as [u' pw' sc' cmd' ex'].
  cbn [command]. intros <-.
  destruct cmd as [ | | list_ w | w list_ p | alias w p list_ r action].
  - right. eexists. split; reflexivity.
  - left. split; reflexivity.
  - destruct list_, w; vm_compute; eauto.
  - destruct list_, w, p; vm_compute; eauto.
  - unfold parse_known_args, repository_subparser; cbn [command].
    destruct list_, r; try (right; eexists; split; reflexivity);
      (destruct action as [ | o | o];
       [ destruct required, w, p; vm_compute; eauto
       | destruct required, w, p; vm_compute; eauto
       | destruct (create_subparser_cases o) as [-> | [e ->]];
         [ destruct required, w, p; vm_compute; eauto
         | right; eexists; split; reflexivity ] ]).
Qed.

Lemma has_repo_name_same (inv inv' : Invocation) :
  command inv = command inv' -> has_repo_name inv = has_repo_name inv'.
Proof. unfold has_repo_name. now intros ->. Qed.

Lemma verify_same (inv inv' : Invocation) :
  command inv = command inv' ->
  __args_verify_repo_actions (namespace_of inv) =
  __args_verify_repo_actions (namespace_of inv').
Proof.
  unfold namespace_of. intros ->. now destruct (command inv').
Qed.

Lemma subcommand_same (inv inv' : Invocation) :
  command inv = command inv' ->
  args_subcommand (namespace_of inv) = args_subcommand (namespace_of inv').
Proof.
  unfold namespace_of. intros ->. now destruct (command inv').
Qed.

Lemma validate_same (inv inv' : Invocation) :
  command inv = command inv' ->
  unrecognized inv = unrecognized inv' ->
  (validate inv = ret (namespace_of inv) /\
   validate inv' = ret (namespace_of inv')) \/
  exists t e, validate inv = (t, inl e) /\ validate inv' = (t, inl e).
Proof.
  intros Hc Hx.
  unfold validate, __get_parser, __create_repository_subparser.
  destruct (parse_known_args_same false inv inv' Hc)
    as [[-> ->] | [e [-> ->]]]; [| right; do 2 eexists; split; reflexivity].
  rewrite !bind_ret. cbn [fst].
  rewrite <- (subcommand_same inv inv' Hc).
  replace (negb (is_None (args_repository (namespace_of inv'))))
    with (negb (is_None (args_repository (namespace_of inv))))
    by (unfold namespace_of; rewrite Hc; now destruct (command inv')).
  set (required := if _ : bool then _ else false).
  unfold parse_args.
  destruct (parse_known_args_same required inv inv' Hc)
    as [[-> ->] | [e [-> ->]]]; [| right; do 2 eexists; split; reflexivity].
  rewrite !bind_ret. cbn [fst snd]. rewrite <- Hx.
  destruct (unrecognized inv);
    [| right; do 2 eexists; split; reflexivity].
  rewrite !bind_ret, <- (subcommand_same inv inv' Hc),
    <- (verify_same inv inv' Hc).
  destruct (_ || _); [| left; split; reflexivity].
  destruct (verify_cases (namespace_of inv)) as [-> | [msg ->]].
  - left; split; reflexivity.
  - right; do 2 eexists; split; reflexivity.
Qed.

Lemma main_program_same (sdk : Atlassian) (env : Environ)
    (inv inv' : Invocation) :
  command inv = command inv' ->
  resolved_username env inv = resolved_username env inv' ->
  resolved_password env inv = resolved_password env inv' ->
  main_program sdk (constructed env inv) =
  main_program sdk (constructed env inv').
Proof.
  intros Hc Hu Hp.
  unfold main_program, workspace_cmd, project_cmd, repo_cmd, repo_show_cmd,
    __create_repository, create_repository, __list_workspaces,
    __list_projects, __list_repositories, __print_repository_links,
    __print_repository_https_url, __print_repository_ssh_url, bbc.
  cbn [constructed __args __username __password __for_scripting].
  rewrite Hu, Hp. unfold namespace_of. rewrite Hc.
  now destruct (command inv').
Qed.

(** Two command lines that differ in their global flags only, and resolve
    to the same credentials, run alike. *)
Lemma main_same (sdk : Atlassian) (env : Environ) (inv inv' : Invocation) :
  command inv = command inv' ->
  unrecognized inv = unrecognized inv' ->
  py_or (opt_user inv) (BITBUCKET_USER env) =
    py_or (opt_user inv') (BITBUCKET_USER env) ->
  py_or (opt_password inv) (BITBUCKET_PASSWORD env) =
    py_or (opt_password inv') (BITBUCKET_PASSWORD env) ->
  main sdk env inv = main sdk env inv'.
Proof.
  intros Hc Hx Hu Hp.
  assert (Hu' : resolved_username env inv = resolved_username env inv')
    by exact Hu.
  assert (Hp' : resolved_password env inv = resolved_password env inv')
    by (unfold resolved_password; now rewrite Hp, Hc).
  destruct (validate_same inv inv' Hc Hx) as [[Hv Hv'] | (t & e & Hv & Hv')].
  - destruct (validate_cases inv) as [(_ & _ & Hn) | [[e H] | [msg H]]];
      [| rewrite Hv in H; discriminate H ..].
    rewrite (main_validated sdk env inv Hv Hn),
      (main_validated sdk env inv' Hv') by congruence.
    rewrite <- Hu', <- Hc. destruct (_ && _); [reflexivity |].
    unfold password_prompt. rewrite <- Hp, <- Hc.
    rewrite !bind_value. destruct (is_tests (command inv)); [reflexivity |].
    now rewrite (main_program_same sdk env inv inv' Hc Hu' Hp').
  - now rewrite
      (main_rejected sdk env inv _ _ (init_rejected env inv _ _ Hv)),
      (main_rejected sdk env inv' _ _ (init_rejected env inv' _ _ Hv')).
Qed.

(** [--for-scripting] changes nothing: the flag is parsed into the
    namespace, and [args.for_scripting] is read nowhere. *)
Lemma for_scripting_ignored (sdk : Atlassian) (env : Environ)
    (inv : Invocation) (b : bool) :
  main sdk env (with_for_scripting b inv) = main sdk env inv.
Proof. now apply main_same. Qed.

(** ** Credential resolution *)

(** When [__init__] returns, it returns the object [constructed] after the
    events [password_prompt]. *)
Lemma init_returns (env : Environ) (inv : Invocation) (t : list event)
    (cli : BitbucketCLI) :
  __init__ env inv = (t, inr cli) ->
  t = password_prompt env inv /\ cli = constructed env inv.
Proof.
  intros H.
  destruct (validate_cases inv) as [(Hv & _ & Hn) | [[e He] | [msg He]]].
  - rewrite (init_validated env inv Hv Hn) in H.
    destruct (_ && _); [discriminate H |].
    injection H as <- <-. now split.
  - rewrite (init_rejected env inv _ _ He) in H. discriminate H.
  - rewrite (init_rejected env inv _ _ He) in H. discriminate H.
Qed.

Lemma unresolved_username_fatal (sdk : Atlassian) (env : Environ)
    (inv : Invocation) :
  resolved_username env inv = None ->
  is_tests (command inv) = false ->
  fatal_argument_error (main sdk env inv).
Proof.
  intros Hu Ht.
  destruct (validate_cases inv) as [(Hv & _ & Hn) | Hrej].
  - rewrite (main_validated sdk env inv Hv Hn), Hu, Ht.
    apply @fatal_parser_error.
  - now apply main_validation_failure.
Qed.

(** C2 (amended).  Whenever [__init__] returns, the username is the flag
    value if that is a non-empty string, else the environment variable; the
    password is the flag value if non-empty, else the environment variable if
    set, else (except for [tests]) what the user types at the one
    echo-disabled prompt; there is no prompt in any other case. *)
Theorem C2_flag_then_environment_then_prompt (env : Environ)
    (inv : Invocation) (t : list event) (cli : BitbucketCLI) :
  __init__ env inv = (t, inr cli) ->
  __username cli =
    (if truthy (opt_user inv) then opt_user inv else BITBUCKET_USER env) /\
  __password cli =
    (if truthy (opt_password inv) then opt_password inv
     else match BITBUCKET_PASSWORD env with
          | Some p => Some p
          | None => if is_tests (command inv) then None
                    else Some (typed_password env)
          end) /\
  prompts t =
    (if truthy (opt_password inv) then []
     else match BITBUCKET_PASSWORD env with
          | Some _ => []
          | None => if is_tests (command inv) then []
                    else ["Enter Bitbucket password: "]
          end).
Proof.
  intros H. destruct (init_returns env inv t cli H) as [-> ->].
  cbn [constructed __username __password].
  unfold resolved_username, resolved_password, password_prompt, py_or.
  split; [reflexivity |].
  destruct (opt_password inv) as [pw |] eqn:Hpw; cbn [truthy].
  - destruct (pw =? "") eqn:E; cbn [negb].
    + destruct (BITBUCKET_PASSWORD env), (is_tests (command inv)); now split.
    + now split.
  - destruct (BITBUCKET_PASSWORD env), (is_tests (command inv)); now split.
Qed.

Lemma C2_flag_then_environment_then_prompt_witness :
  __init__ sample_env with_both_flags =
    ([], inr (constructed sample_env with_both_flags)) /\
  __username (constructed sample_env with_both_flags) = Some "alice" /\
  __password (constructed sample_env with_both_flags) = Some "hunter2" /\
  prompts [] = [].
Proof.
  split; [reflexivity |].
  exact (C2_flag_then_environment_then_prompt
           sample_env with_both_flags [] _ eq_refl).
Defined.

(** C2 as stated fails: with [--user ''] and [BITBUCKET_USER=bob] the flag
    is present, yet the username the program ends with is [bob]; and for
    [tests] with no password anywhere there is no prompt. *)
Lemma C2_empty_user_flag_loses_to_environment :
  opt_user with_empty_user = Some "" /\
  BITBUCKET_USER sample_env = Some "bob" /\
  match outcome (__init__ sample_env with_empty_user) with
  | inr cli => __username cli = Some "bob"
  | inl _ => False
  end /\
  __init__ bare_env (plain Tests) =
    ([], inr (constructed bare_env (plain Tests))) /\
  __password (constructed bare_env (plain Tests)) = None.
Proof. repeat split. Qed.

Lemma py_or_blank (flag value : option string) :
  py_or flag value = py_or (if truthy flag then flag else None) value.
Proof.
  unfold py_or. destruct (truthy flag) eqn:E; [now rewrite E | reflexivity].
Qed.

(** C9.  An empty [--user] or [--password] value is treated as absent: the
    run is the one of the same command line without that flag.  So an empty
    [--user] leaves the username to [BITBUCKET_USER], and the run is a fatal
    argument error when that is unset (subcommand other than [tests]); an
    empty [--password] leaves the password to [BITBUCKET_PASSWORD], and to
    the prompt when that is unset. *)
Theorem C9_empty_flag_treated_as_absent (sdk : Atlassian) (env : Environ)
    (inv : Invocation) :
  main sdk env inv = main sdk env (blank_as_absent inv) /\
  (opt_user inv = Some "" ->
   (forall t cli, __init__ env inv = (t, inr cli) ->
                  __username cli = BITBUCKET_USER env) /\
   (BITBUCKET_USER env = None -> is_tests (command inv) = false ->
    fatal_argument_error (main sdk env inv))) /\
  (opt_password inv = Some "" ->
   forall t cli, __init__ env inv = (t, inr cli) ->
     match BITBUCKET_PASSWORD env with
     | Some p => __password cli = Some p /\ prompts t = []
     | None =>
         if is_tests (command inv)
         then __password cli = None /\ prompts t = []
         else __password cli = Some (typed_password env) /\
              prompts t = ["Enter Bitbucket password: "]
     end).
Proof.
  split; [| split].
  - apply main_same; try reflexivity; apply py_or_blank.
  - intros Hu. split.
    + intros t cli H. destruct (init_returns env inv t cli H) as [_ ->].
      cbn [constructed __username]. unfold resolved_username.
      now rewrite Hu.
    + intros He Ht. apply unresolved_username_fatal; [| exact Ht].
      unfold resolved_username. now rewrite Hu, He.
  - intros Hp t cli H. destruct (init_returns env inv t cli H) as [-> ->].
    cbn [constructed __password].
    unfold resolved_password, password_prompt. rewrite Hp.
    destruct (BITBUCKET_PASSWORD env), (is_tests (command inv)); now split.
Qed.

Lemma C9_empty_flag_treated_as_absent_witness :
  (__init__ user_only_env with_empty_flags =
     ([Getpass "Enter Bitbucket password: "],
      inr (constructed user_only_env with_empty_flags)) /\
   __username (constructed user_only_env with_empty_flags) = Some "bob" /\
   __password (constructed user_only_env with_empty_flags) = Some "typed") /\
  fatal_argument_error (main sample_sdk bare_env with_empty_flags).
Proof.
  destruct (C9_empty_flag_treated_as_absent
              sample_sdk user_only_env with_empty_flags)
    as (_ & Hu & Hp).
  destruct (Hu eq_refl) as [Hname _].
  destruct (C9_empty_flag_treated_as_absent
              sample_sdk bare_env with_empty_flags)
    as (_ & Hu' & _).
  destruct (Hu' eq_refl) as [_ Hfatal].
  split; [split; [reflexivity | split] |].
  - exact (Hname _ _ eq_refl).
  - exact (proj1 (Hp eq_refl _ _ eq_refl)).
  - exact (Hfatal eq_refl eq_refl).
Defined.

(** ** [create_repository] *)

Lemma fork_policy_check (sdk : Atlassian) (token : string) :
  ~ In token (FORK_POLICIES sdk) ->
  existsb (String.eqb token) (FORK_POLICIES sdk) = false.
Proof.
  intros Hn. destruct (existsb _ _) eqn:E; [| reflexivity].
  apply existsb_exists in E. destruct E as (x & Hx & Heq).
  apply String.eqb_eq in Heq. subst x. contradiction.
Qed.

(** With objects for the three handles and a fork policy that is absent or
    recognized, the one effect is the create call. *)
Lemma create_repository_reaches_sdk (sdk : Atlassian) (self : BitbucketCLI)
    (project : Project) (workspace : Workspace) (name : string)
    (is_private : option bool) (fork_policy : option string) :
  (forall token, fork_policy = Some token -> In token (FORK_POLICIES sdk)) ->
  trace (create_repository sdk self (PyObj project) (PyObj workspace)
                           (PyObj name) is_private fork_policy) =
    [Remote (RepositoriesCreate workspace name (pr_key project)
                                is_private fork_policy)].
Proof.
  intros Hok. unfold create_repository.
  assert (E : match fork_policy with
              | None => false
              | Some policy =>
                  negb (existsb (String.eqb policy) (FORK_POLICIES sdk))
              end = false).
  { destruct fork_policy as [token |]; [| reflexivity].
    apply negb_false_iff, existsb_exists. exists token.
    split; [now apply Hok | apply String.eqb_refl]. }
  rewrite E. unfold remote.
  destruct (repositories_create _ _ _ _ _ _) as [msg | [ | | r]]; reflexivity.
Qed.

(** C3 (amended).  [create_repository] fails before any effect, hence
    without calling the SDK, when the project, the workspace or the
    repository name is [None] and when the fork policy is a value outside
    the three recognized tokens.  (An empty name is not among these cases.) *)
Theorem C3_create_repository_checks_before_calling (sdk : Atlassian)
    (self : BitbucketCLI) (project : pyobj Project)
    (workspace : pyobj Workspace) (repository_name : pyobj string)
    (is_private : option bool) (fork_policy : option string) :
  project = PyNone \/ workspace = PyNone \/ repository_name = PyNone \/
  (exists token, fork_policy = Some token /\
                 ~ In token (FORK_POLICIES sdk)) ->
  exists e,
    create_repository sdk self project workspace repository_name
                      is_private fork_policy = raise e /\
    remote_calls (trace (create_repository sdk self project workspace
                           repository_name is_private fork_policy)) = [].
Proof.
  intros H. unfold create_repository.
  destruct project as [ | | p]; try (eexists; split; reflexivity).
  destruct workspace as [ | | w]; try (eexists; split; reflexivity).
  destruct repository_name as [ | | n]; try (eexists; split; reflexivity).
  destruct H as [H | [H | [H | (token & -> & Hn)]]]; try discriminate H.
  rewrite (fork_policy_check sdk token Hn). eexists; split; reflexivity.
Qed.

Lemma C3_create_repository_checks_before_calling_witness :
  ~ In "maybe" (FORK_POLICIES sample_sdk) /\
  exists e,
    create_repository sample_sdk sample_cli (PyObj tools) (PyObj teamA)
                      (PyObj "cli") None (Some "maybe") = raise e /\
    remote_calls (trace (create_repository sample_sdk sample_cli
                           (PyObj tools) (PyObj teamA) (PyObj "cli")
                           None (Some "maybe"))) = [].
Proof.
  assert (Hn : ~ In "maybe" (FORK_POLICIES sample_sdk)).
  { cbn. intros [H | [H | [H | []]]]; discriminate H. }
  split; [exact Hn |].
  apply C3_create_repository_checks_before_calling.
  right; right; right. exists "maybe". split; [reflexivity | exact Hn].
Defined.

(** C3 as stated fails on the empty name: the call returns, after one
    create call to the SDK. *)
Lemma C3_empty_name_reaches_the_sdk :
  create_calls (trace (create_repository sample_sdk sample_cli
                         (PyObj tools) (PyObj teamA) (PyObj "")
                         None None)) =
    [RepositoriesCreate teamA "" "TL" None None] /\
  match outcome (create_repository sample_sdk sample_cli (PyObj tools)
                   (PyObj teamA) (PyObj "") None None) with
  | inr _ => True
  | inl _ => False
  end.
Proof. split; [reflexivity | exact I]. Qed.

(** ** The nested action of [repository] *)

Lemma listing_ignores_action (sdk : Atlassian) (env : Environ)
    (inv : Invocation) (alias : bool) (w p : string) (action : Action) :
  main_program sdk
    (constructed env (repository_line inv alias w p true None action)) =
  main_program sdk
    (constructed env (repository_line inv alias w p true None NoAction)).
Proof. destruct alias; reflexivity. Qed.

(** C5 (amended).  On a [repository]/[repo] command line with its required
    options, the nested action is required exactly when a repository is
    named: naming one and omitting the action is the parse error "the
    following arguments are required: repo_subcommand", while [--list] with
    no action is accepted.  With [--list], a nested action that validation
    accepts changes nothing in the run.  (Validation itself still looks at
    the action.) *)
Theorem C5_action_required_iff_repository_named (sdk : Atlassian)
    (env : Environ) (inv : Invocation) (alias : bool) (w p : string) :
  unrecognized inv = [] ->
  (forall r,
     main sdk env (repository_line inv alias w p false (Some r) NoAction) =
       argparse_error (MissingArguments ["repo_subcommand"])) /\
  validate (repository_line inv alias w p true None NoAction) =
    ret (namespace_of (repository_line inv alias w p true None NoAction)) /\
  (forall action,
     validate (repository_line inv alias w p true None action) =
       ret (namespace_of (repository_line inv alias w p true None action)) ->
     main sdk env (repository_line inv alias w p true None action) =
     main sdk env (repository_line inv alias w p true None NoAction)).
Proof.
  intros Hx.
  assert (H0 : validate (repository_line inv alias w p true None NoAction) =
               ret (namespace_of
                      (repository_line inv alias w p true None NoAction))).
  { destruct inv as [u pw sc cmd ex]. cbn in Hx. subst ex.
    destruct alias; reflexivity. }
  split; [| split; [exact H0 |]].
  - intros r. apply main_rejected, init_rejected.
    destruct inv as [u pw sc cmd ex]. cbn in Hx. subst ex.
    destruct alias; reflexivity.
  - intros action Hv.
    rewrite (main_validated sdk env _ Hv), (main_validated sdk env _ H0)
      by discriminate.
    change (resolved_username env
              (repository_line inv alias w p true None action))
      with (resolved_username env inv).
    change (resolved_username env
              (repository_line inv alias w p true None NoAction))
      with (resolved_username env inv).
    cbn [repository_line with_command command is_tests negb].
    destruct (_ && _); [reflexivity |].
    rewrite !bind_value.
    change (password_prompt env
              (with_command
                 (RepositoryCommand alias (Some w) (Some p) true None action)
                 inv))
      with (password_prompt env
              (with_command
                 (RepositoryCommand alias (Some w) (Some p) true None NoAction)
                 inv)).
    now rewrite <- (listing_ignores_action sdk env inv alias w p action).
Qed.

Lemma C5_action_required_iff_repository_named_witness :
  main sample_sdk sample_env
       (repository_line (plain Tests) false "team-a" "TL" false
                        (Some "cli") NoAction) =
    argparse_error (MissingArguments ["repo_subcommand"]) /\
  validate list_only = ret (namespace_of list_only) /\
  main sample_sdk sample_env
       (repository_line (plain Tests) false "team-a" "TL" true None
                        (Show no_show)) =
  main sample_sdk sample_env list_only.
Proof.
  destruct (C5_action_required_iff_repository_named
              sample_sdk sample_env (plain Tests) false "team-a" "TL" eq_refl)
    as (H1 & H2 & H3).
  split; [exact (H1 "cli") | split; [exact H2 |]].
  exact (H3 (Show no_show) eq_refl).
Defined.

(** C5 as stated fails where it says that the action is not consulted
    after [--list]: [--list show --links] is a fatal argument error, while
    [--list] alone lists the repositories. *)
Lemma C5_list_with_show_flag_is_rejected :
  main sample_sdk sample_env list_show_links =
    parser_error "Error: --repository (-r) is required with --links (-L)." /\
  exit_status (main sample_sdk sample_env list_only) = 0%Z /\
  stdout (trace (main sample_sdk sample_env list_only)) =
    ["Repository: cli (cli) in  in Project: Tools (TL) in Workspace: teamA (team-a)"].
Proof. repeat split. Qed.

(** ** Runs of the repository subcommand *)

Lemma main_program_repository (sdk : Atlassian) (env : Environ)
    (inv : Invocation) (alias : bool) (w p : string) (list_ : bool)
    (r : option string) (action : Action) :
  main_program sdk
    (constructed env (repository_line inv alias w p list_ r action)) =
  repo_cmd sdk (constructed env (repository_line inv alias w p list_ r action)).
Proof. destruct alias; reflexivity. Qed.

Lemma repo_lookup (cloud : Cloud) (w p : string) (ws : Workspace)
    (pj : Project) (k : Workspace -> Project -> M unit) :
  workspaces_get cloud w = Reply (PyObj ws) ->
  projects_get cloud ws p = Reply (PyObj pj) ->
  (workspace <- bbc_getitem cloud w ;;
   project <- workspace_getitem cloud workspace p ;;
   k workspace project) =
  bind ([Remote (WorkspacesGet w); Remote (ProjectsGet ws p)], inr tt)
       (fun _ => k ws pj).
Proof.
  intros Hw Hp. unfold bbc_getitem, workspace_getitem, remote.
  rewrite Hw. cbn. rewrite Hp. cbn.
  destruct (k ws pj) as [t r]. reflexivity.
Qed.

(** A named repository with an action, the required options and nothing
    unrecognized passes validation when the action's own flags do. *)
Lemma named_repository_validated (inv : Invocation) (alias : bool)
    (w p r : string) (action : Action) :
  unrecognized inv = [] ->
  action = Show no_show \/ action = Create private_no_forks ->
  validate (repository_line inv alias w p false (Some r) action) =
    ret (namespace_of (repository_line inv alias w p false (Some r) action)).
Proof.
  intros Hx Ha. destruct inv as [u pw sc cmd ex]. cbn in Hx. subst ex.
  destruct Ha as [-> | ->]; destruct alias; reflexivity.
Qed.

(** The run of a validated repository command line up to the two lookups. *)
Lemma repository_run (sdk : Atlassian) (env : Environ) (inv : Invocation)
    (alias : bool) (w p : string) (list_ : bool) (r : option string)
    (action : Action) (ws : Workspace) (pj : Project) (line : Invocation)
    (k : M unit) :
  line = repository_line inv alias w p list_ r action ->
  validate line = ret (namespace_of line) ->
  resolved_username env inv <> None ->
  workspaces_get (session sdk env line) w = Reply (PyObj ws) ->
  projects_get (session sdk env line) ws p = Reply (PyObj pj) ->
  (if list_ then __list_repositories sdk (constructed env line) pj ws
   else match r with
        | Some repository_name =>
            match action with
            | Show _ =>
                repo_show_cmd sdk (constructed env line) ws pj repository_name
            | Create _ => __create_repository sdk (constructed env line) pj ws
            | NoAction => print_help
            end
        | None => print_help
        end) = k ->
  main sdk env line =
    ((password_prompt env line ++
      [Remote (WorkspacesGet w); Remote (ProjectsGet ws p)] ++ trace k)%list,
     outcome k).
Proof.
  intros -> Hv Hu Hw Hp Hk.
  rewrite (main_validated sdk env _ Hv) by discriminate.
  change (resolved_username env
            (repository_line inv alias w p list_ r action))
    with (resolved_username env inv).
  destruct (resolved_username env inv) eqn:Eu; [| contradiction].
  cbn [is_None andb repository_line with_command command is_tests].
  rewrite bind_value. fold (repository_line inv alias w p list_ r action).
  rewrite main_program_repository. unfold repo_cmd.
  change (bbc sdk (constructed env
                     (repository_line inv alias w p list_ r action)))
    with (session sdk env (repository_line inv alias w p list_ r action)).
  cbn [constructed __args namespace_of repository_line with_command
       command namespace args_workspace args_project].
  rewrite (repo_lookup _ w p ws pj _ Hw Hp), bind_value.
  cbn [namespace args_list args_repository args_repo_subcommand].
  replace (if list_ then _ else _) with k; [reflexivity |].
  rewrite <- Hk. destruct list_; [reflexivity |].
  destruct r; [| reflexivity]. destruct action; reflexivity.
Qed.

(** C6.  [repository -w W -P P -r R show] with no detail flag, a resolved
    username and the three resources found: after the lookups the program
    prints the repository header, then the usage help, and ends with exit
    status 0. *)
Theorem C6_show_without_detail_flag_prints_help (sdk : Atlassian)
    (env : Environ) (inv : Invocation) (alias : bool) (w p r : string)
    (ws : Workspace) (pj : Project) (repo : Repository) :
  unrecognized inv = [] ->
  resolved_username env inv <> None ->
  workspaces_get (session sdk env (show_line inv alias w p r)) w =
    Reply (PyObj ws) ->
  projects_get (session sdk env (show_line inv alias w p r)) ws p =
    Reply (PyObj pj) ->
  repositories_get (session sdk env (show_line inv alias w p r)) pj r =
    Reply (PyObj repo) ->
  main sdk env (show_line inv alias w p r) =
    ((password_prompt env (show_line inv alias w p r) ++
      [Remote (WorkspacesGet w); Remote (ProjectsGet ws p);
       Remote (RepositoriesGet pj r);
       Print ("Repository: " ++ repo_name repo ++ " in Project: " ++
              pr_name pj ++ " in Workspace: " ++ ws_name ws);
       PrintHelp])%list, inr tt) /\
  exit_status (main sdk env (show_line inv alias w p r)) = 0%Z.
Proof.
  intros Hx Hu Hw Hp Hr.
  assert (Hrun :
    main sdk env (show_line inv alias w p r) =
      ((password_prompt env (show_line inv alias w p r) ++
        [Remote (WorkspacesGet w); Remote (ProjectsGet ws p);
         Remote (RepositoriesGet pj r);
         Print ("Repository: " ++ repo_name repo ++ " in Project: " ++
                pr_name pj ++ " in Workspace: " ++ ws_name ws);
         PrintHelp])%list, inr tt)).
  { unfold show_line in *.
    rewrite (repository_run sdk env inv alias w p false (Some r)
               (Show no_show) ws pj _ _ eq_refl
               (named_repository_validated inv alias w p r _ Hx
                  (or_introl eq_refl))
               Hu Hw Hp eq_refl).
    unfold repo_show_cmd, project_getitem, remote.
    change (bbc sdk (constructed env
              (repository_line inv alias w p false (Some r) (Show no_show))))
      with (session sdk env
              (repository_line inv alias w p false (Some r) (Show no_show))).
    rewrite Hr. reflexivity. }
  split; [exact Hrun |].
  rewrite Hrun. reflexivity.
Qed.

Lemma C6_show_without_detail_flag_prints_help_witness :
  main sample_sdk sample_env (show_line (plain Tests) false "team-a" "TL" "cli") =
    ([Remote (WorkspacesGet "team-a"); Remote (ProjectsGet teamA "TL");
      Remote (RepositoriesGet tools "cli");
      Print "Repository: cli in Project: Tools in Workspace: teamA";
      PrintHelp], inr tt) /\
  exit_status
    (main sample_sdk sample_env
          (show_line (plain Tests) false "team-a" "TL" "cli")) = 0%Z.
Proof.
  apply (C6_show_without_detail_flag_prints_help
           sample_sdk sample_env (plain Tests) false "team-a" "TL" "cli"
           teamA tools cli_repo); try reflexivity.
  discriminate.
Defined.

Lemma no_forks_recognized (sdk : Atlassian) :
  existsb (String.eqb (NO_FORKS sdk)) (FORK_POLICIES sdk) = true.
Proof.
  apply existsb_exists. exists (NO_FORKS sdk).
  split; [right; right; left; reflexivity | apply String.eqb_refl].
Qed.

(** C7.  [repository -w W -P P -r NAME create --private --no-allow-forks]
    with a resolved username, the workspace and the project found and the
    creation accepted: the SDK's create operation is called once, with
    [is_private = True] and [fork_policy = NO_FORKS], and the one line
    printed names the repository, the project and the workspace. *)
Theorem C7_create_private_without_forks (sdk : Atlassian) (env : Environ)
    (inv : Invocation) (alias : bool) (w p name : string) (ws : Workspace)
    (pj : Project) (repo : Repository) :
  unrecognized inv = [] ->
  resolved_username env inv <> None ->
  workspaces_get (session sdk env (create_line inv alias w p name)) w =
    Reply (PyObj ws) ->
  projects_get (session sdk env (create_line inv alias w p name)) ws p =
    Reply (PyObj pj) ->
  repositories_create (session sdk env (create_line inv alias w p name))
                      ws name (pr_key pj) (Some true) (Some (NO_FORKS sdk)) =
    Reply (PyObj repo) ->
  create_calls (trace (main sdk env (create_line inv alias w p name))) =
    [RepositoriesCreate ws name (pr_key pj) (Some true)
                        (Some (NO_FORKS sdk))] /\
  stdout (trace (main sdk env (create_line inv alias w p name))) =
    ["Repository: " ++ repo_name repo ++ " created in Project: " ++
     pr_name pj ++ " in Workspace: " ++ ws_name ws] /\
  exit_status (main sdk env (create_line inv alias w p name)) = 0%Z.
Proof.
  intros Hx Hu Hw Hp Hc.
  assert (Hrun :
    main sdk env (create_line inv alias w p name) =
      ((password_prompt env (create_line inv alias w p name) ++
        [Remote (WorkspacesGet w); Remote (ProjectsGet ws p);
         Remote (RepositoriesCreate ws name (pr_key pj) (Some true)
                                    (Some (NO_FORKS sdk)));
         Print ("Repository: " ++ repo_name repo ++ " created in Project: " ++
                pr_name pj ++ " in Workspace: " ++ ws_name ws)])%list,
       inr tt)).
  { unfold create_line in *.
    rewrite (repository_run sdk env inv alias w p false (Some name)
               (Create private_no_forks) ws pj _ _ eq_refl
               (named_repository_validated inv alias w p name _ Hx
                  (or_intror eq_refl))
               Hu Hw Hp eq_refl).
    unfold __create_repository, create_repository, remote.
    change (bbc sdk (constructed env
              (repository_line inv alias w p false (Some name)
                               (Create private_no_forks))))
      with (session sdk env
              (repository_line inv alias w p false (Some name)
                               (Create private_no_forks))).
    cbn [constructed __args __for_scripting namespace_of repository_line
         with_command command namespace private_no_forks args_public
         args_private args_allow_forks args_no_allow_forks
         args_no_public_forks args_repository opt_public opt_private
         opt_allow_forks opt_no_allow_forks opt_no_public_forks].
    rewrite no_forks_recognized. cbn [negb]. rewrite Hc. reflexivity. }
  rewrite Hrun. unfold password_prompt.
  destruct (_ && _); repeat split.
Qed.

Lemma C7_create_private_without_forks_witness :
  create_calls
    (trace (main sample_sdk sample_env
                 (create_line (plain Tests) false "team-a" "TL" "newrepo"))) =
    [RepositoriesCreate teamA "newrepo" "TL" (Some true) (Some "no_forks")] /\
  stdout
    (trace (main sample_sdk sample_env
                 (create_line (plain Tests) false "team-a" "TL" "newrepo"))) =
    ["Repository: newrepo created in Project: Tools in Workspace: teamA"] /\
  exit_status
    (main sample_sdk sample_env
          (create_line (plain Tests) false "team-a" "TL" "newrepo")) = 0%Z.
Proof.
  apply (C7_create_private_without_forks
           sample_sdk sample_env (plain Tests) false "team-a" "TL" "newrepo"
           teamA tools
           {| repo_name := "newrepo"; repo_slug := "newrepo";
              repo_links := None |}); try reflexivity.
  discriminate.
Defined.

(** ** Scripting mode *)

(** Every object the program builds has [__for_scripting = False], whatever
    the command line says. *)
Lemma for_scripting_never_set (env : Environ) (inv : Invocation)
    (t : list event) (cli : BitbucketCLI) :
  __init__ env inv = (t, inr cli) -> __for_scripting cli = false.
Proof.
  intros H. now destruct (init_returns env inv t cli H) as [_ ->].
Qed.

(** [__list_workspaces] has no scripting branch: the mode does not reach
    it. *)
Lemma list_workspaces_ignores_mode (sdk : Atlassian) (self : BitbucketCLI)
    (b : bool) :
  __list_workspaces sdk (forced_scripting b self) = __list_workspaces sdk self.
Proof. reflexivity. Qed.

(** Were the field set, the summary lines of the single-resource commands
    would be dropped and nothing printed in their place. *)
Lemma forced_scripting_drops_summary (sdk : Atlassian) (self : BitbucketCLI)
    (w : string) :
  args_list (__args self) = false ->
  args_workspace (__args self) = Some w ->
  stdout (trace (workspace_cmd sdk (forced_scripting true self))) = [].
Proof.
  intros Hl Hw. unfold workspace_cmd, bbc_getitem, remote.
  cbn [forced_scripting __args __for_scripting]. rewrite Hl, Hw.
  destruct (workspaces_get _ w) as [msg | [ | | ws]]; reflexivity.
Qed.

(** C1 (code at the failing inputs).  Setting [--for-scripting] changes no
    run of the program; so with the flag set the three listings print exactly
    the labelled lines of human mode. *)
Theorem C1_for_scripting_listings_stay_labelled :
  (forall sdk env inv,
     main sdk env (with_for_scripting true inv) =
     main sdk env (with_for_scripting false inv)) /\
  stdout (trace (main sample_sdk sample_env scripting_workspace_list)) =
    ["Workspace: teamA (team-a)"; "Workspace: teamB (team-b)"] /\
  stdout (trace (main sample_sdk sample_env scripting_project_list)) =
    ["Project: Tools (TL)"] /\
  stdout (trace (main sample_sdk sample_env scripting_repository_list)) =
    ["Repository: cli (cli) in  in Project: Tools (TL) in Workspace: teamA (team-a)"].
Proof.
  split; [| repeat split].
  intros sdk env inv. now rewrite !for_scripting_ignored.
Qed.

(** C10 (code at the failing inputs).  With [--for-scripting] set, naming a
    workspace, naming a project and creating a repository each still print
    their summary line. *)
Theorem C10_for_scripting_summaries_still_printed :
  stdout (trace (main sample_sdk sample_env scripting_workspace_named)) =
    ["Workspace: teamA (team-a)"] /\
  stdout (trace (main sample_sdk sample_env scripting_project_named)) =
    ["Project: Tools (TL)"] /\
  stdout (trace (main sample_sdk sample_env scripting_create)) =
    ["Repository: newrepo created in Project: Tools in Workspace: teamA"].
Proof. repeat split. Qed.

(** * Further properties *)

(** ** The grammar *)

Lemma validate_well_formed (inv : Invocation) :
  validate inv = ret (namespace_of inv) <-> well_formed inv = true.
Proof.
  destruct inv as [u pw sc cmd ex].
  destruct cmd as [ | | l w | w l p | alias w p l r [ | [[] [] []] | [[] [] [] [] []]]].
  all: destruct ex.
  all: try (destruct l, w; split; intros H; vm_compute in H |- *;
            solve [reflexivity | discriminate H]).
  all: try (destruct l, w, p; split; intros H; vm_compute in H |- *;
            solve [reflexivity | discriminate H]).
  all: try (split; intros H; vm_compute in H |- *;
            solve [reflexivity | discriminate H]).
  all: destruct alias, w, p, l, r; split; intros H; vm_compute in H |- *;
    solve [reflexivity | discriminate H].
Qed.

(** ** Events of a composed computation *)

Lemma trace_bind {A B : Type} (m : M A) (k : A -> M B) :
  trace (bind m k) =
    (trace m ++ match outcome m with
                | inr a => trace (k a)
                | inl _ => []
                end)%list.
Proof.
  destruct m as [t [e | a]]; cbn.
  - now rewrite app_nil_r.
  - now destruct (k a).
Qed.

Lemma outcome_bind {A B : Type} (m : M A) (k : A -> M B) :
  outcome (bind m k) =
    match outcome m with
    | inl e => inl e
    | inr a => outcome (k a)
    end.
Proof.
  destruct m as [t [e | a]]; cbn; [reflexivity | now destruct (k a)].
Qed.

Lemma without_bind {A B : Type} (kind : event -> bool) (m : M A)
    (k : A -> M B) :
  without kind m -> (forall a, without kind (k a)) ->
  without kind (bind m k).
Proof.
  unfold without. intros Hm Hk. rewrite trace_bind, forallb_app, Hm.
  destruct (outcome m) as [e | a]; [reflexivity | apply Hk].
Qed.

Lemma without_ret {A : Type} (kind : event -> bool) (a : A) :
  without kind (ret a).
Proof. reflexivity. Qed.

Lemma without_raise {A : Type} (kind : event -> bool) (e : exn) :
  without kind (@raise A e).
Proof. reflexivity. Qed.

Lemma without_emit (kind : event -> bool) (ev : event) :
  kind ev = false -> without kind (emit ev).
Proof. unfold without. cbn. now intros ->. Qed.

Lemma without_iterate {A : Type} (kind : event -> bool) (body : A -> M unit)
    (l : list A) :
  (forall x, without kind (body x)) -> without kind (iterate body l).
Proof.
  intros Hb. induction l as [| x rest IH]; cbn [iterate].
  - apply without_ret.
  - apply without_bind; [apply Hb | intros _; exact IH].
Qed.

Lemma no_exit_bind {A B : Type} (m : M A) (k : A -> M B) :
  no_exit m -> (forall a, no_exit (k a)) -> no_exit (bind m k).
Proof.
  unfold no_exit. intros Hm Hk code. rewrite outcome_bind.
  destruct (outcome m) as [e | a] eqn:E; [| apply Hk].
  intros Heq. injection Heq as ->. now apply (Hm code).
Qed.

Lemma no_exit_iterate {A : Type} (body : A -> M unit) (l : list A) :
  (forall x, no_exit (body x)) -> no_exit (iterate body l).
Proof.
  intros Hb. induction l as [| x rest IH]; cbn [iterate].
  - intros code; discriminate.
  - apply no_exit_bind; [apply Hb | intros _; exact IH].
Qed.

Lemma without_remote_calls {A : Type} (m : M A) :
  without is_remote m -> remote_calls (trace m) = [].
Proof.
  unfold without. induction (trace m) as [| e t IH]; [reflexivity |].
  cbn. intros H. apply andb_prop in H. destruct H as [He Ht].
  destruct e; try discriminate He; now apply IH.
Qed.

Lemma without_stdout {A : Type} (m : M A) :
  without is_print m -> stdout (trace m) = [].
Proof.
  unfold without. induction (trace m) as [| e t IH]; [reflexivity |].
  cbn. intros H. apply andb_prop in H. destruct H as [He Ht].
  destruct e; try discriminate He; now apply IH.
Qed.


Lemma remote_calls_app (t u : list event) :
  remote_calls (t ++ u) = (remote_calls t ++ remote_calls u)%list.
Proof. unfold remote_calls. now rewrite flat_map_app. Qed.

Lemma round_trips_bind {A B : Type} (m : M A) (k : A -> M B) (a b : nat) :
  round_trips m <= a -> (forall x, round_trips (k x) <= b) ->
  round_trips (bind m k) <= a + b.
Proof.
  unfold round_trips. intros Hm Hk.
  rewrite trace_bind, remote_calls_app, length_app.
  destruct (outcome m) as [e | x]; [cbn; lia | specialize (Hk x); lia].
Qed.

Lemma round_trips_without {A : Type} (m : M A) :
  without is_remote m -> round_trips m = 0.
Proof.
  intros H. unfold round_trips. now rewrite without_remote_calls.
Qed.

(** ** What the building blocks emit *)

Ltac trace_free :=
  repeat (intros;
    match goal with
    | |- without _ (bind _ _) => apply without_bind
    | |- without _ (ret _) => apply without_ret
    | |- without _ (raise _) => apply without_raise
    | |- without _ (emit _) => apply without_emit; reflexivity
    | |- without _ (iterate _ _) => apply without_iterate
    | |- without _ (if ?b then _ else _) => destruct b
    | |- without _ (match ?x with _ => _ end) => destruct x
    | |- no_exit (bind _ _) => apply no_exit_bind
    | |- no_exit (ret _) => intros ?; discriminate
    | |- no_exit (raise _) => intros ?; discriminate
    | |- no_exit (emit _) => intros ?; discriminate
    | |- no_exit (iterate _ _) => apply no_exit_iterate
    | |- no_exit (if ?b then _ else _) => destruct b
    | |- no_exit (match ?x with _ => _ end) => destruct x
    end).

Lemma remote_no_report {A : Type} (c : call) (r : response A) :
  without is_report (remote c r).
Proof. unfold remote. trace_free. Qed.

Lemma remote_no_print {A : Type} (c : call) (r : response A) :
  without is_print (remote c r).
Proof. unfold remote. trace_free. Qed.

Lemma remote_no_exit {A : Type} (c : call) (r : response A) :
  no_exit (remote c r).
Proof. unfold remote. trace_free. Qed.

Lemma remote_round_trips {A : Type} (c : call) (r : response A) :
  round_trips (remote c r) = 1.
Proof. destruct r; reflexivity. Qed.

Lemma for_each_round_trips {A : Type} (c : call) (l : listing A)
    (body : A -> M unit) :
  (forall x, without is_remote (body x)) ->
  remote_calls (trace (for_each c l body)) = [c].
Proof.
  intros Hb. unfold for_each.
  rewrite trace_bind, remote_calls_app. cbn [emit trace outcome fst snd].
  rewrite without_remote_calls; [reflexivity |].
  apply without_bind; [now apply without_iterate |].
  intros _. destruct (fault l); [apply without_raise | apply without_ret].
Qed.

Lemma for_each_no_report {A : Type} (c : call) (l : listing A)
    (body : A -> M unit) :
  (forall x, without is_report (body x)) ->
  without is_report (for_each c l body).
Proof. intros Hb. unfold for_each. trace_free. apply Hb. Qed.

Lemma for_each_no_exit {A : Type} (c : call) (l : listing A)
    (body : A -> M unit) :
  (forall x, no_exit (body x)) -> no_exit (for_each c l body).
Proof. intros Hb. unfold for_each. trace_free. apply Hb. Qed.

Lemma clone_href_silent (kind : event -> bool) (repository : Repository)
    (i : nat) :
  without kind (clone_href repository i).
Proof.
  unfold clone_href.
  destruct (repo_links repository) as [links |]; [| reflexivity].
  destruct (find _ links) as [[key v] |]; [| reflexivity].
  destruct (nth_error (lv_hrefs v) i) as [[href |] |]; reflexivity.
Qed.


(** ** The commands never report on standard error themselves *)









Lemma well_formed_options (inv : Invocation) :
  well_formed inv = true ->
  command inv <> NoCommand /\
  match command inv with
  | ProjectCommand w _ _ => w <> None
  | RepositoryCommand _ w p _ _ _ => w <> None /\ p <> None
  | _ => True
  end.
Proof.
  unfold well_formed. destruct (unrecognized inv); [| discriminate].
  destruct (command inv) as [ | | l w | [w |] l p | alias [w |] [p |] l r a];
    cbn; intros H; try discriminate H; repeat split; discriminate.
Qed.




(** ** What a run never does *)

Lemma construction_local (env : Environ) (inv : Invocation) :
  remote_calls (trace (__init__ env inv)) = [] /\
  stdout (trace (__init__ env inv)) = [] /\
  length (prompts (trace (__init__ env inv))) <= 1.
Proof.
  destruct (validate_cases inv) as [(Hv & _ & Hn) | [[e H] | [msg H]]].
  - rewrite (init_validated env inv Hv Hn).
    destruct (_ && _); [cbn; repeat split; lia |].
    unfold password_prompt.
    destruct (is_None (py_or _ _) && _); cbn; repeat split; lia.
  - rewrite (init_rejected env inv _ _ H). cbn. repeat split; lia.
  - rewrite (init_rejected env inv _ _ H). cbn. repeat split; lia.
Qed.

(** X2.  Building the object ([__init__]: parsing, validation, credential
    resolution) makes no round trip to the SDK, prints nothing on standard
    output and asks for the password at most once. *)
Theorem X2_construction_stays_local (env : Environ) (inv : Invocation) :
  remote_calls (trace (__init__ env inv)) = [] /\
  stdout (trace (__init__ env inv)) = [] /\
  length (prompts (trace (__init__ env inv))) <= 1.
Proof.
  pose proof (construction_local env inv) as (Hr & Ho & Hp).
  repeat split; assumption.
Qed.

Lemma bbc_getitem_round_trips (cloud : Cloud) (key : string) :
  round_trips (bbc_getitem cloud key) <= 1.
Proof.
  unfold bbc_getitem. apply (round_trips_bind _ _ 1 0).
  - rewrite remote_round_trips. lia.
  - intros [ | | x]; cbn; lia.
Qed.

Lemma workspace_getitem_round_trips (cloud : Cloud) (w : Workspace)
    (key : string) :
  round_trips (workspace_getitem cloud w key) <= 1.
Proof.
  unfold workspace_getitem. apply (round_trips_bind _ _ 1 0).
  - rewrite remote_round_trips. lia.
  - intros [ | | x]; cbn; lia.
Qed.

Lemma project_getitem_round_trips (cloud : Cloud) (p : Project)
    (key : string) :
  round_trips (project_getitem cloud p key) <= 1.
Proof.
  unfold project_getitem. apply (round_trips_bind _ _ 1 0).
  - rewrite remote_round_trips. lia.
  - intros [ | | x]; cbn; lia.
Qed.

Lemma workspace_cmd_round_trips (sdk : Atlassian) (self : BitbucketCLI) :
  round_trips (workspace_cmd sdk self) <= 1.
Proof.
  unfold workspace_cmd.
  destruct (args_list (__args self)).
  - unfold round_trips, __list_workspaces.
    rewrite for_each_round_trips; [cbn; lia |].
    intros x. unfold print. trace_free.
  - destruct (args_workspace (__args self)) as [w |]; [| cbn; lia].
    apply (round_trips_bind _ _ 1 0).
    + apply bbc_getitem_round_trips.
    + intros x. destruct (negb _); cbn; lia.
Qed.

Lemma project_cmd_round_trips (sdk : Atlassian) (self : BitbucketCLI) :
  round_trips (project_cmd sdk self) <= 2.
Proof.
  unfold project_cmd.
  destruct (args_workspace (__args self)) as [w |]; [| cbn; lia].
  apply (round_trips_bind _ _ 1 1).
  - apply bbc_getitem_round_trips.
  - intros ws. destruct (args_list (__args self)).
    + unfold round_trips, __list_projects.
      rewrite for_each_round_trips; [cbn; lia |].
      intros x. unfold print. trace_free.
    + destruct (args_project (__args self)) as [p |]; [| cbn; lia].
      apply (round_trips_bind _ _ 1 0).
      * apply workspace_getitem_round_trips.
      * intros x. destruct (negb _); cbn; lia.
Qed.

Lemma repo_show_cmd_round_trips (sdk : Atlassian) (self : BitbucketCLI)
    (workspace : Workspace) (project : Project) (name : string) :
  round_trips (repo_show_cmd sdk self workspace project name) <= 1.
Proof.
  unfold repo_show_cmd.
  apply (round_trips_bind _ _ 1 0).
  - apply project_getitem_round_trips.
  - intros repository. rewrite round_trips_without; [lia |].
    unfold __print_repository_links, __print_repository_https_url,
      __print_repository_ssh_url, https_url, ssh_url, print, print_help.
    trace_free; apply clone_href_silent.
Qed.

Lemma create_round_trips (sdk : Atlassian) (self : BitbucketCLI)
    (project : Project) (workspace : Workspace) :
  round_trips (__create_repository sdk self project workspace) <= 1.
Proof.
  unfold __create_repository.
  apply (round_trips_bind _ _ 1 0).
  - unfold create_repository.
    destruct (args_repository (__args self)); [| cbn; lia].
    destruct (match _ with None => false | Some _ => _ end); [cbn; lia |].
    apply (round_trips_bind _ _ 1 0).
    + rewrite remote_round_trips. lia.
    + intros [ | | x]; cbn; lia.
  - intros x. destruct (negb _); cbn; lia.
Qed.

Lemma repo_cmd_round_trips (sdk : Atlassian) (self : BitbucketCLI) :
  round_trips (repo_cmd sdk self) <= 3.
Proof.
  unfold repo_cmd.
  destruct (args_workspace (__args self)) as [w |]; [| cbn; lia].
  apply (round_trips_bind _ _ 1 2).
  - apply bbc_getitem_round_trips.
  - intros ws.
    destruct (args_project (__args self)) as [p |]; [| cbn; lia].
    apply (round_trips_bind _ _ 1 1).
    + apply workspace_getitem_round_trips.
    + intros pj. destruct (args_list (__args self)).
      * unfold round_trips, __list_repositories.
        rewrite for_each_round_trips; [cbn; lia |].
        intros x. unfold print. trace_free.
      * destruct (args_repository (__args self)) as [r |]; [| cbn; lia].
        destruct (py_eq _ "show"); [apply repo_show_cmd_round_trips |].
        destruct (py_eq _ "create"); [apply create_round_trips | cbn; lia].
Qed.

(** X3.  No run makes more than three round trips to the SDK: at most the
    workspace lookup, the project lookup and one final operation. *)
Theorem X3_at_most_three_round_trips (sdk : Atlassian) (env : Environ)
    (inv : Invocation) :
  round_trips (main sdk env inv) <= 3.
Proof.
  unfold main. apply (round_trips_bind _ _ 0 3).
  - unfold round_trips.
    now rewrite (proj1 (construction_local env inv)).
  - intros cli. destruct (_ =? "tests"); [cbn; lia |].
    unfold main_program.
    destruct (_ =? "workspace");
      [pose proof (workspace_cmd_round_trips sdk cli); lia |].
    destruct (_ =? "project");
      [pose proof (project_cmd_round_trips sdk cli); lia |].
    destruct (_ || _); [apply repo_cmd_round_trips | cbn; lia].
Qed.

Lemma without_create_calls {A : Type} (m : M A) :
  without is_create m -> create_calls (trace m) = [].
Proof.
  unfold without, create_calls.
  induction (trace m) as [| e t IH]; [reflexivity |].
  cbn [forallb]. intros H. apply andb_prop in H. destruct H as [He Ht].
  destruct e as [ | | | | | c | ]; try (now apply IH).
  destruct c; try discriminate He; now apply IH.
Qed.

Lemma repo_cmd_no_create (sdk : Atlassian) (self : BitbucketCLI) :
  args_list (__args self) = true \/
  args_repository (__args self) = None \/
  py_eq (args_repo_subcommand (__args self)) "show" = true \/
  py_eq (args_repo_subcommand (__args self)) "create" = false ->
  without is_create (repo_cmd sdk self).
Proof.
  intros H. unfold repo_cmd.
  destruct (args_workspace (__args self)) as [w |]; [| reflexivity].
  apply without_bind.
  { unfold bbc_getitem, remote, BitbucketCLIWorkspaceWrapper. trace_free. }
  intros ws.
  destruct (args_project (__args self)) as [p |]; [| reflexivity].
  apply without_bind.
  { unfold workspace_getitem, remote, BitbucketCLIProjectWrapper.
    trace_free. }
  intros pj.
  destruct (args_list (__args self)).
  { unfold __list_repositories, for_each, print. trace_free. }
  destruct (args_repository (__args self)) as [r |]; [| reflexivity].
  destruct (py_eq _ "show").
  { unfold repo_show_cmd, project_getitem, remote,
      BitbucketCLIRepositoryWrapper, __print_repository_links,
      __print_repository_https_url, __print_repository_ssh_url, https_url,
      ssh_url, print, print_help.
    trace_free; apply clone_href_silent. }
  destruct (py_eq _ "create"); [| reflexivity].
  destruct H as [H | [H | [H | H]]]; discriminate H.
Qed.

Lemma main_program_no_create (sdk : Atlassian) (env : Environ)
    (inv : Invocation) :
  asks_create inv = false ->
  without is_create (main_program sdk (constructed env inv)).
Proof.
  intros Ha. unfold main_program. cbn [constructed __args].
  unfold namespace_of, asks_create in *.
  destruct (command inv) as [ | | l w | w l p | alias w p l r a] eqn:Hc;
    cbn [namespace args_subcommand].
  - reflexivity.
  - reflexivity.
  - change ("workspace" =? "workspace") with true. cbn match.
    unfold workspace_cmd, __list_workspaces, for_each, bbc_getitem, remote,
      BitbucketCLIWorkspaceWrapper, print, print_help.
    trace_free.
  - change ("project" =? "workspace") with false.
    change ("project" =? "project") with true. cbn match.
    unfold project_cmd, __list_projects, for_each, bbc_getitem,
      workspace_getitem, remote, BitbucketCLIWorkspaceWrapper,
      BitbucketCLIProjectWrapper, print, print_help.
    trace_free; reflexivity.
  - assert (Hr : without is_create (repo_cmd sdk (constructed env inv))).
    { apply repo_cmd_no_create. cbn [constructed __args].
      unfold namespace_of. rewrite Hc.
      cbn [namespace args_list args_repository args_repo_subcommand].
      destruct l; [now left | right].
      destruct r as [r |]; [right | now left].
      destruct a; [now right | now left | discriminate Ha]. }
    destruct alias; exact Hr.
Qed.

(** X4.  A run calls the SDK's create operation only when the command line
    is [repository ... -r NAME create]: for every other command line the
    trace holds no create call. *)
Theorem X4_creates_only_when_asked (sdk : Atlassian) (env : Environ)
    (inv : Invocation) :
  asks_create inv = false ->
  create_calls (trace (main sdk env inv)) = [].
Proof.
  intros Ha. apply without_create_calls.
  destruct (validate_cases inv) as [(Hv & _ & Hn) | [[e H] | [msg H]]].
  - rewrite (main_validated sdk env inv Hv Hn).
    destruct (_ && _); [reflexivity |].
    rewrite bind_value. unfold without. cbn [trace fst].
    rewrite forallb_app. apply andb_true_intro. split.
    + unfold password_prompt. now destruct (is_None (py_or _ _) && _).
    + destruct (is_tests (command inv)); [reflexivity |].
      now apply main_program_no_create.
  - now rewrite (main_rejected sdk env inv _ _ (init_rejected env inv _ _ H)).
  - now rewrite (main_rejected sdk env inv _ _ (init_rejected env inv _ _ H)).
Qed.

Lemma X4_creates_only_when_asked_witness :
  asks_create list_only = false /\
  create_calls (trace (main sample_sdk sample_env list_only)) = [].
Proof.
  split; [reflexivity |].
  apply X4_creates_only_when_asked. reflexivity.
Defined.

(** ** Listings *)

Lemma iterate_print {A : Type} (line : A -> string) (l : list A) :
  iterate (fun x => print (line x)) l =
    (map (fun x => Print (line x)) l, inr tt).
Proof.
  induction l as [| x rest IH]; [reflexivity |].
  cbn [iterate map]. now rewrite IH.
Qed.

Lemma for_each_print {A : Type} (c : call) (l : listing A)
    (line : A -> string) :
  for_each c l (fun x => print (line x)) =
    (Remote c :: map (fun x => Print (line x)) (items l),
     match fault l with
     | Some msg => inl (HTTPError msg)
     | None => inr tt
     end).
Proof.
  unfold for_each. rewrite iterate_print.
  destruct (fault l); cbn; now rewrite app_nil_r.
Qed.

Lemma stdout_map_print {A : Type} (line : A -> string) (l : list A) :
  stdout (map (fun x => Print (line x)) l) = map line l.
Proof.
  induction l as [| x rest IH]; [reflexivity |]. cbn. now rewrite <- IH.
Qed.

Lemma stdout_app (t u : list event) :
  stdout (t ++ u) = (stdout t ++ stdout u)%list.
Proof. unfold stdout. now rewrite flat_map_app. Qed.

Lemma stdout_password_prompt (env : Environ) (inv : Invocation) :
  stdout (password_prompt env inv) = [].
Proof. unfold password_prompt. now destruct (_ && _). Qed.

(** A well-formed command line with a resolved username runs its
    command on the constructed object, after the prompt if any. *)
Lemma main_accepted (sdk : Atlassian) (env : Environ) (inv : Invocation) :
  well_formed inv = true ->
  is_tests (command inv) = false ->
  resolved_username env inv <> None ->
  main sdk env inv =
    ((password_prompt env inv ++
      trace (main_program sdk (constructed env inv)))%list,
     outcome (main_program sdk (constructed env inv))).
Proof.
  intros Hwf Ht Hu.
  destruct (well_formed_options inv Hwf) as [Hn _].
  rewrite (main_validated sdk env inv (proj2 (validate_well_formed inv) Hwf) Hn).
  destruct (resolved_username env inv); [| contradiction].
  rewrite Ht. cbn [is_None andb negb]. now rewrite bind_value.
Qed.

(** X5.  [workspace --list], with a resolved username: one enumeration of
    the workspaces, then one line [Workspace: NAME (SLUG)] per workspace, in
    the order the SDK yields them; a fault of the enumeration ends the run
    after the lines of the workspaces already yielded. *)
Theorem X5_workspace_list_prints_each_workspace (sdk : Atlassian)
    (env : Environ) (inv : Invocation) :
  command inv = WorkspaceCommand true None ->
  unrecognized inv = [] ->
  resolved_username env inv <> None ->
  main sdk env inv =
    ((password_prompt env inv ++
      Remote WorkspacesEach ::
      map (fun w => Print ("Workspace: " ++ ws_name w ++
                           " (" ++ ws_slug w ++ ")"))
          (items (workspaces_each (session sdk env inv))))%list,
     match fault (workspaces_each (session sdk env inv)) with
     | Some msg => inl (HTTPError msg)
     | None => inr tt
     end).
Proof.
  intros Hc Hx Hu.
  assert (Hwf : well_formed inv = true)
    by (unfold well_formed; now rewrite Hx, Hc).
  rewrite (main_accepted sdk env inv Hwf) by (rewrite ?Hc; easy).
  unfold main_program, workspace_cmd. cbn [constructed __args].
  unfold namespace_of. rewrite Hc.
  cbn [namespace args_subcommand args_list].
  change ("workspace" =? "workspace") with true. cbn match.
  unfold __list_workspaces. rewrite for_each_print. reflexivity.
Qed.

Lemma X5_workspace_list_prints_each_workspace_witness :
  command (plain (WorkspaceCommand true None)) = WorkspaceCommand true None /\
  resolved_username sample_env (plain (WorkspaceCommand true None)) <> None /\
  stdout (trace (main sample_sdk sample_env
                      (plain (WorkspaceCommand true None)))) =
    ["Workspace: teamA (team-a)"; "Workspace: teamB (team-b)"].
Proof.
  split; [reflexivity | split; [discriminate |]].
  rewrite (X5_workspace_list_prints_each_workspace
             sample_sdk sample_env (plain (WorkspaceCommand true None))
             eq_refl eq_refl);
    [reflexivity | discriminate].
Defined.

Lemma workspace_lookup {A : Type} (cloud : Cloud) (w : string)
    (ws : Workspace) (k : Workspace -> M A) :
  workspaces_get cloud w = Reply (PyObj ws) ->
  (workspace <- bbc_getitem cloud w ;; k workspace) =
    ((Remote (WorkspacesGet w) :: trace (k ws))%list, outcome (k ws)).
Proof.
  intros Hw. unfold bbc_getitem, remote. rewrite Hw. cbn.
  now destruct (k ws).
Qed.

(** X6.  [project -w W --list], with a resolved username and the workspace
    found: the workspace lookup, one enumeration of its projects, then one
    line [Project: NAME (KEY)] per project, in the order yielded. *)
Theorem X6_project_list_prints_each_project (sdk : Atlassian) (env : Environ)
    (inv : Invocation) (w : string) (ws : Workspace) :
  command inv = ProjectCommand (Some w) true None ->
  unrecognized inv = [] ->
  resolved_username env inv <> None ->
  workspaces_get (session sdk env inv) w = Reply (PyObj ws) ->
  main sdk env inv =
    ((password_prompt env inv ++
      Remote (WorkspacesGet w) :: Remote (ProjectsEach ws) ::
      map (fun p => Print ("Project: " ++ pr_name p ++
                           " (" ++ pr_key p ++ ")"))
          (items (projects_each (session sdk env inv) ws)))%list,
     match fault (projects_each (session sdk env inv) ws) with
     | Some msg => inl (HTTPError msg)
     | None => inr tt
     end).
Proof.
  intros Hc Hx Hu Hw.
  assert (Hwf : well_formed inv = true)
    by (unfold well_formed; now rewrite Hx, Hc).
  rewrite (main_accepted sdk env inv Hwf) by (rewrite ?Hc; easy).
  unfold main_program, project_cmd. cbn [constructed __args].
  unfold namespace_of. rewrite Hc.
  cbn [namespace args_subcommand args_list args_workspace].
  change ("project" =? "workspace") with false.
  change ("project" =? "project") with true. cbn match.
  change (bbc sdk (constructed env inv)) with (session sdk env inv).
  rewrite (workspace_lookup _ w ws _ Hw).
  unfold __list_projects. cbn [constructed __for_scripting].
  change (bbc sdk (constructed env inv)) with (session sdk env inv).
  rewrite for_each_print. reflexivity.
Qed.

Lemma X6_project_list_prints_each_project_witness :
  command (plain (ProjectCommand (Some "team-a") true None)) =
    ProjectCommand (Some "team-a") true None /\
  stdout (trace (main sample_sdk sample_env
                      (plain (ProjectCommand (Some "team-a") true None)))) =
    ["Project: Tools (TL)"].
Proof.
  split; [reflexivity |].
  rewrite (X6_project_list_prints_each_project
             sample_sdk sample_env
             (plain (ProjectCommand (Some "team-a") true None))
             "team-a" teamA eq_refl eq_refl);
    [reflexivity | discriminate | reflexivity].
Defined.

(** X7.  [repository -w W -P P --list], with a resolved username and both
    ancestors found: the two lookups, one enumeration of the repositories,
    then one line per repository, in the order yielded; each line is
    [Repository: NAME (SLUG) in ] followed by the suffix [ancestors],
    [ in Project: PNAME (KEY) in Workspace: WNAME (WSLUG)] (the two [ in ]
    are both printed). *)
Theorem X7_repository_list_prints_each_repository (sdk : Atlassian)
    (env : Environ) (inv : Invocation) (alias : bool) (w p : string)
    (ws : Workspace) (pj : Project) :
  unrecognized inv = [] ->
  resolved_username env inv <> None ->
  workspaces_get
    (session sdk env (repository_line inv alias w p true None NoAction)) w =
    Reply (PyObj ws) ->
  projects_get
    (session sdk env (repository_line inv alias w p true None NoAction))
    ws p = Reply (PyObj pj) ->
  main sdk env (repository_line inv alias w p true None NoAction) =
    ((password_prompt env (repository_line inv alias w p true None NoAction) ++
      [Remote (WorkspacesGet w); Remote (ProjectsGet ws p)] ++
      Remote (RepositoriesEach pj) ::
      map (fun r =>
             Print ("Repository: " ++
                    (repo_name r ++ " (" ++ repo_slug r ++ ") in ") ++
                    ancestors pj ws))
          (items (repositories_each
                    (session sdk env
                       (repository_line inv alias w p true None NoAction))
                    pj)))%list,
     match fault (repositories_each
                    (session sdk env
                       (repository_line inv alias w p true None NoAction))
                    pj) with
     | Some msg => inl (HTTPError msg)
     | None => inr tt
     end).
Proof.
  intros Hx Hu Hw Hp.
  assert (Hv : validate (repository_line inv alias w p true None NoAction) =
               ret (namespace_of
                      (repository_line inv alias w p true None NoAction))).
  { apply validate_well_formed. unfold well_formed.
    cbn [repository_line with_command unrecognized command]. now rewrite Hx. }
  rewrite (repository_run sdk env inv alias w p true None NoAction ws pj
             _ _ eq_refl Hv Hu Hw Hp eq_refl).
  unfold __list_repositories. cbn [constructed __for_scripting].
  change (bbc sdk (constructed env ?i)) with (session sdk env i).
  rewrite for_each_print. reflexivity.
Qed.

Lemma X7_repository_list_prints_each_repository_witness :
  unrecognized (plain Tests) = [] /\
  stdout (trace (main sample_sdk sample_env
                      (repository_line (plain Tests) false "team-a" "TL"
                                       true None NoAction))) =
    ["Repository: cli (cli) in  in Project: Tools (TL) in Workspace: teamA (team-a)"].
Proof.
  split; [reflexivity |].
  rewrite (X7_repository_list_prints_each_repository
             sample_sdk sample_env (plain Tests) false "team-a" "TL"
             teamA tools eq_refl);
    [reflexivity | discriminate | reflexivity | reflexivity].
Defined.

Lemma remote_calls_map_print {A : Type} (line : A -> string) (l : list A) :
  remote_calls (map (fun x => Print (line x)) l) = [].
Proof. induction l as [| x rest IH]; [reflexivity | exact IH]. Qed.

Lemma append_empty_r (s : string) : s ++ "" = s.
Proof. induction s as [| c s IH]; [reflexivity | cbn; now rewrite IH]. Qed.

(** X8.  The two listing functions written for both modes print, in human
    mode, exactly the lines of scripting mode with the label put in front
    (and, for repositories, the ancestors put behind); the mode changes
    neither the round trips nor the way the listing ends. *)
Theorem X8_listing_lines_relabel (sdk : Atlassian) (self : BitbucketCLI)
    (ws : Workspace) (pj : Project) :
  (stdout (trace (__list_projects sdk (forced_scripting false self) ws)) =
     map (fun bare => "Project: " ++ bare)
         (stdout (trace (__list_projects sdk (forced_scripting true self)
                                         ws))) /\
   remote_calls (trace (__list_projects sdk (forced_scripting false self)
                                        ws)) =
     remote_calls (trace (__list_projects sdk (forced_scripting true self)
                                          ws)) /\
   outcome (__list_projects sdk (forced_scripting false self) ws) =
     outcome (__list_projects sdk (forced_scripting true self) ws)) /\
  (stdout (trace (__list_repositories sdk (forced_scripting false self)
                                      pj ws)) =
     map (fun bare =>
            "Repository: " ++ bare ++ ancestors pj ws)
         (stdout (trace (__list_repositories sdk (forced_scripting true self)
                                             pj ws))) /\
   remote_calls (trace (__list_repositories sdk (forced_scripting false self)
                                            pj ws)) =
     remote_calls (trace (__list_repositories sdk (forced_scripting true self)
                                              pj ws)) /\
   outcome (__list_repositories sdk (forced_scripting false self) pj ws) =
     outcome (__list_repositories sdk (forced_scripting true self) pj ws)).
Proof.
  unfold __list_projects, __list_repositories.
  cbn [forced_scripting __for_scripting].
  change (bbc sdk (forced_scripting _ self)) with (bbc sdk self).
  rewrite !for_each_print. cbn [trace outcome fst snd].
  change (stdout (?e :: ?t)) with (stdout [e] ++ stdout t)%list.
  change (remote_calls (?e :: ?t))
    with (remote_calls [e] ++ remote_calls t)%list.
  cbn [stdout remote_calls flat_map app].
  rewrite !stdout_map_print, !remote_calls_map_print, !map_map.
  repeat split.
  apply map_ext. intros r. cbn [append]. now rewrite append_empty_r.
Qed.

(** ** Single resources *)

(** X9.  [workspace --workspace W], with a resolved username and the
    workspace found: one lookup, then the one line [Workspace: NAME (SLUG)],
    and exit status 0. *)
Theorem X9_named_workspace_prints_summary (sdk : Atlassian) (env : Environ)
    (inv : Invocation) (w : string) (ws : Workspace) :
  command inv = WorkspaceCommand false (Some w) ->
  unrecognized inv = [] ->
  resolved_username env inv <> None ->
  workspaces_get (session sdk env inv) w = Reply (PyObj ws) ->
  main sdk env inv =
    ((password_prompt env inv ++
      [Remote (WorkspacesGet w);
       Print ("Workspace: " ++ ws_name ws ++ " (" ++ ws_slug ws ++ ")")])%list,
     inr tt).
Proof.
  intros Hc Hx Hu Hw.
  assert (Hwf : well_formed inv = true)
    by (unfold well_formed; now rewrite Hx, Hc).
  rewrite (main_accepted sdk env inv Hwf) by (rewrite ?Hc; easy).
  unfold main_program, workspace_cmd. cbn [constructed __args].
  unfold namespace_of. rewrite Hc.
  cbn [namespace args_subcommand args_list args_workspace].
  change ("workspace" =? "workspace") with true. cbn match.
  change (bbc sdk (constructed env inv)) with (session sdk env inv).
  rewrite (workspace_lookup _ w ws _ Hw). reflexivity.
Qed.

Lemma X9_named_workspace_prints_summary_witness :
  command (plain (WorkspaceCommand false (Some "team-a"))) =
    WorkspaceCommand false (Some "team-a") /\
  main sample_sdk sample_env (plain (WorkspaceCommand false (Some "team-a"))) =
    ([Remote (WorkspacesGet "team-a"); Print "Workspace: teamA (team-a)"],
     inr tt).
Proof.
  split; [reflexivity |].
  apply (X9_named_workspace_prints_summary
           sample_sdk sample_env
           (plain (WorkspaceCommand false (Some "team-a"))) "team-a" teamA);
    try reflexivity.
  discriminate.
Defined.

Lemma project_lookup {A : Type} (cloud : Cloud) (ws : Workspace) (p : string)
    (pj : Project) (k : Project -> M A) :
  projects_get cloud ws p = Reply (PyObj pj) ->
  (project <- workspace_getitem cloud ws p ;; k project) =
    ((Remote (ProjectsGet ws p) :: trace (k pj))%list, outcome (k pj)).
Proof.
  intros Hp. unfold workspace_getitem, remote. rewrite Hp. cbn.
  now destruct (k pj).
Qed.

(** X10.  [project -w W --project P], with a resolved username and both
    resources found: the two lookups, then the one line
    [Project: NAME (KEY)], and exit status 0. *)
Theorem X10_named_project_prints_summary (sdk : Atlassian) (env : Environ)
    (inv : Invocation) (w p : string) (ws : Workspace) (pj : Project) :
  command inv = ProjectCommand (Some w) false (Some p) ->
  unrecognized inv = [] ->
  resolved_username env inv <> None ->
  workspaces_get (session sdk env inv) w = Reply (PyObj ws) ->
  projects_get (session sdk env inv) ws p = Reply (PyObj pj) ->
  main sdk env inv =
    ((password_prompt env inv ++
      [Remote (WorkspacesGet w); Remote (ProjectsGet ws p);
       Print ("Project: " ++ pr_name pj ++ " (" ++ pr_key pj ++ ")")])%list,
     inr tt).
Proof.
  intros Hc Hx Hu Hw Hp.
  assert (Hwf : well_formed inv = true)
    by (unfold well_formed; now rewrite Hx, Hc).
  rewrite (main_accepted sdk env inv Hwf) by (rewrite ?Hc; easy).
  unfold main_program, project_cmd. cbn [constructed __args].
  unfold namespace_of. rewrite Hc.
  cbn [namespace args_subcommand args_list args_workspace args_project].
  change ("project" =? "workspace") with false.
  change ("project" =? "project") with true. cbn match.
  change (bbc sdk (constructed env inv)) with (session sdk env inv).
  rewrite (workspace_lookup _ w ws _ Hw), (project_lookup _ ws p pj _ Hp).
  reflexivity.
Qed.

Lemma X10_named_project_prints_summary_witness :
  command (plain (ProjectCommand (Some "team-a") false (Some "TL"))) =
    ProjectCommand (Some "team-a") false (Some "TL") /\
  main sample_sdk sample_env
       (plain (ProjectCommand (Some "team-a") false (Some "TL"))) =
    ([Remote (WorkspacesGet "team-a"); Remote (ProjectsGet teamA "TL");
      Print "Project: Tools (TL)"],
     inr tt).
Proof.
  split; [reflexivity |].
  apply (X10_named_project_prints_summary
           sample_sdk sample_env
           (plain (ProjectCommand (Some "team-a") false (Some "TL")))
           "team-a" "TL" teamA tools);
    try reflexivity.
  discriminate.
Defined.

(** ** Lookups that fail *)

(** X11.  On any accepted [repository] command line, a fault of the
    workspace lookup ends the run there: one round trip, nothing on standard
    output, the SDK's exception as outcome; a fault of the project lookup
    ends it after the second round trip.  The project is never looked up
    in a workspace that was not found. *)
Theorem X11_missing_ancestor_stops_the_run (sdk : Atlassian) (env : Environ)
    (inv : Invocation) (alias : bool) (w p : string) (list_ : bool)
    (r : option string) (action : Action) (line : Invocation) :
  line = repository_line inv alias w p list_ r action ->
  well_formed line = true ->
  resolved_username env inv <> None ->
  (forall msg,
     workspaces_get (session sdk env line) w = Fault msg ->
     main sdk env line =
       ((password_prompt env line ++ [Remote (WorkspacesGet w)])%list,
        inl (HTTPError msg))) /\
  (forall ws msg,
     workspaces_get (session sdk env line) w = Reply (PyObj ws) ->
     projects_get (session sdk env line) ws p = Fault msg ->
     main sdk env line =
       ((password_prompt env line ++
         [Remote (WorkspacesGet w); Remote (ProjectsGet ws p)])%list,
        inl (HTTPError msg))).
Proof.
  intros -> Hwf Hu.
  assert (Hrun :
    main sdk env (repository_line inv alias w p list_ r action) =
      ((password_prompt env (repository_line inv alias w p list_ r action) ++
        trace (repo_cmd sdk (constructed env
                 (repository_line inv alias w p list_ r action))))%list,
       outcome (repo_cmd sdk (constructed env
                  (repository_line inv alias w p list_ r action))))).
  { rewrite (main_accepted sdk env _ Hwf); [| reflexivity | exact Hu].
    now rewrite main_program_repository. }
  rewrite Hrun. unfold repo_cmd. cbn [constructed __args].
  change (bbc sdk _) with
    (session sdk env (repository_line inv alias w p list_ r action)).
  cbn [namespace_of repository_line with_command command namespace
       args_workspace args_project].
  split.
  - intros msg Hw. unfold bbc_getitem, remote.
    cbn [repository_line with_command] in Hw. rewrite Hw. reflexivity.
  - intros ws msg Hw Hp.
    cbn [repository_line with_command] in Hw, Hp.
    rewrite (workspace_lookup _ w ws _ Hw).
    unfold workspace_getitem, remote. rewrite Hp. reflexivity.
Qed.

Lemma X11_missing_ancestor_stops_the_run_witness :
  well_formed (repository_line (plain Tests) false "nowhere" "TL" true None
                               NoAction) = true /\
  main sample_sdk sample_env
       (repository_line (plain Tests) false "nowhere" "TL" true None
                        NoAction) =
    ([Remote (WorkspacesGet "nowhere")], inl (HTTPError "404")).
Proof.
  split; [reflexivity |].
  destruct (X11_missing_ancestor_stops_the_run
              sample_sdk sample_env (plain Tests) false "nowhere" "TL" true
              None NoAction _ eq_refl eq_refl) as [H _]; [discriminate |].
  exact (H "404" eq_refl).
Defined.

(** X12.  [workspace --workspace W] when the lookup hands back [None] or an
    object of another class: the wrapper raises [ValueError], resp.
    [TypeError], after the one round trip; nothing is printed and the exit
    status is 1. *)
Theorem X12_wrapper_rejects_foreign_reply (sdk : Atlassian) (env : Environ)
    (inv : Invocation) (w : string) :
  command inv = WorkspaceCommand false (Some w) ->
  unrecognized inv = [] ->
  resolved_username env inv <> None ->
  (workspaces_get (session sdk env inv) w = Reply PyNone ->
   main sdk env inv =
     ((password_prompt env inv ++ [Remote (WorkspacesGet w)])%list,
      inl (ValueError "workspace is None"))) /\
  (workspaces_get (session sdk env inv) w = Reply PyOther ->
   main sdk env inv =
     ((password_prompt env inv ++ [Remote (WorkspacesGet w)])%list,
      inl (TypeError
             "workspace is not an instance of atlassian.bitbucket.Cloud.workspaces.Workspace"))).
Proof.
  intros Hc Hx Hu.
  assert (Hwf : well_formed inv = true)
    by (unfold well_formed; now rewrite Hx, Hc).
  rewrite (main_accepted sdk env inv Hwf) by (rewrite ?Hc; easy).
  unfold main_program, workspace_cmd. cbn [constructed __args].
  unfold namespace_of. rewrite Hc.
  cbn [namespace args_subcommand args_list args_workspace].
  change ("workspace" =? "workspace") with true. cbn match.
  change (bbc sdk (constructed env inv)) with (session sdk env inv).
  unfold bbc_getitem, remote.
  split; intros Hw; rewrite Hw; reflexivity.
Qed.

Lemma X12_wrapper_rejects_foreign_reply_witness :
  command (plain (WorkspaceCommand false (Some "team-a"))) =
    WorkspaceCommand false (Some "team-a") /\
  main absent_sdk sample_env (plain (WorkspaceCommand false (Some "team-a"))) =
    ([Remote (WorkspacesGet "team-a")], inl (ValueError "workspace is None")).
Proof.
  split; [reflexivity |].
  destruct (X12_wrapper_rejects_foreign_reply
              absent_sdk sample_env
              (plain (WorkspaceCommand false (Some "team-a"))) "team-a"
              eq_refl eq_refl) as [H _]; [discriminate |].
  exact (H eq_refl).
Defined.

(** ** [repository ... show] *)

Lemma without_not_in {A : Type} (kind : event -> bool) (m : M A) (e : event) :
  without kind m -> In e (trace m) -> kind e = false.
Proof.
  unfold without. intros H Hin.
  apply negb_true_iff. revert e Hin. now apply forallb_forall.
Qed.

Lemma printers_without_help (self : BitbucketCLI)
    (repository : Repository) :
  without is_help (__print_repository_links self repository) /\
  without is_help (__print_repository_https_url self repository) /\
  without is_help (__print_repository_ssh_url self repository).
Proof.
  unfold __print_repository_links, __print_repository_https_url,
    __print_repository_ssh_url, https_url, ssh_url, print.
  repeat split; trace_free; apply clone_href_silent.
Qed.

Lemma repository_lookup {A : Type} (cloud : Cloud) (pj : Project)
    (name : string) (repo : Repository) (k : Repository -> M A) :
  repositories_get cloud pj name = Reply (PyObj repo) ->
  (repository <- project_getitem cloud pj name ;; k repository) =
    ((Remote (RepositoriesGet pj name) :: trace (k repo))%list,
     outcome (k repo)).
Proof.
  intros Hr. unfold project_getitem, remote. rewrite Hr. cbn.
  now destruct (k repo).
Qed.

(** X13.  Once the repository is found, [repo_show_cmd] prints the usage
    help exactly when none of [--links], [--https-url], [--ssh-url] is
    set. *)
Theorem X13_show_prints_help_iff_no_detail_flag (sdk : Atlassian)
    (self : BitbucketCLI) (workspace : Workspace) (project : Project)
    (name : string) (repository : Repository) :
  repositories_get (bbc sdk self) project name = Reply (PyObj repository) ->
  (In PrintHelp (trace (repo_show_cmd sdk self workspace project name)) <->
   args_links (__args self) = false /\
   args_https_url (__args self) = false /\
   args_ssh_url (__args self) = false).
Proof.
  intros Hr.
  destruct (printers_without_help self repository) as (Hl & Hh & Hs).
  unfold repo_show_cmd. rewrite (repository_lookup _ _ _ _ _ Hr).
  cbn [trace fst].
  set (header := if negb (__for_scripting self) then _ else ret tt).
  assert (Hhd : without is_help header)
    by (unfold header, print; destruct (negb _); reflexivity).
  destruct (args_links (__args self)), (args_https_url (__args self)),
    (args_ssh_url (__args self)); cbn [negb andb].
  8: { split; [now intros _ |]. intros _. right.
       unfold header, print. destruct (negb _); cbn; auto. }
  all: split; [| intros (H1 & H2 & H3); discriminate].
  all: intros [Hin | Hin]; [discriminate Hin |]; exfalso.
  all: assert (Hf : is_help PrintHelp = false); [| discriminate Hf].
  all: eapply without_not_in; [| exact Hin].
  all: repeat (apply without_bind; [| intros]);
    try assumption; try apply without_ret.
Qed.

Lemma X13_show_prints_help_iff_no_detail_flag_witness :
  repositories_get (bbc sample_sdk show_cli) tools "cli" =
    Reply (PyObj cli_repo) /\
  In PrintHelp (trace (repo_show_cmd sample_sdk show_cli teamA tools "cli")).
Proof.
  split; [reflexivity |].
  apply (X13_show_prints_help_iff_no_detail_flag
           sample_sdk show_cli teamA tools "cli" cli_repo eq_refl).
  repeat split.
Defined.

Lemma stdout_print (line : string) (t : list event) :
  stdout (Print line :: t) = line :: stdout t.
Proof. reflexivity. Qed.

Lemma stdout_remote (c : call) (t : list event) :
  stdout (Remote c :: t) = stdout t.
Proof. reflexivity. Qed.

(** X14.  Once the repository is found and in human mode, [repo_show_cmd]
    prints the header line, then, for the flags that are set and in this
    order: one [Link: KEY -> VALUE] line per entry of the links dictionary,
    the line [HTTPS URL: ] with the href of the first clone link, the line
    [SSH URL: ] with the href of the second. *)
Theorem X14_show_prints_details_in_order (sdk : Atlassian)
    (self : BitbucketCLI) (workspace : Workspace) (project : Project)
    (name : string) (repository : Repository)
    (links : list (string * LinkValue)) (key : string) (clone : LinkValue)
    (first second : string) :
  __for_scripting self = false ->
  repositories_get (bbc sdk self) project name = Reply (PyObj repository) ->
  repo_links repository = Some links ->
  find (fun kv => fst kv =? "clone") links = Some (key, clone) ->
  nth_error (lv_hrefs clone) 0 = Some (Some first) ->
  nth_error (lv_hrefs clone) 1 = Some (Some second) ->
  stdout (trace (repo_show_cmd sdk self workspace project name)) =
    ([show_header repository project workspace] ++
     (if args_links (__args self) then link_lines links else []) ++
     (if args_https_url (__args self)
      then [("HTTPS URL: " ++ first)%string] else []) ++
     (if args_ssh_url (__args self)
      then [("SSH URL: " ++ second)%string] else []))%list
  /\
  outcome (repo_show_cmd sdk self workspace project name) = inr tt.
Proof.
  intros Hm Hr Hl Hc H0 H1.
  unfold repo_show_cmd. rewrite (repository_lookup _ _ _ _ _ Hr).
  cbn [trace outcome fst snd]. rewrite Hm. cbn [negb].
  unfold __print_repository_links, __print_repository_https_url,
    __print_repository_ssh_url, https_url, ssh_url, clone_href.
  rewrite Hm, Hl, Hc, H0, H1, iterate_print.
  unfold link_lines, show_header.
  destruct (args_links (__args self)), (args_https_url (__args self)),
    (args_ssh_url (__args self));
    cbn [negb andb bind ret print emit print_help trace outcome fst snd app];
    rewrite ?app_nil_r;
    repeat (rewrite ?stdout_remote, ?stdout_print, ?stdout_app,
              ?stdout_map_print);
    split; reflexivity.
Qed.

Lemma X14_show_prints_details_in_order_witness :
  __for_scripting show_all_cli = false /\
  stdout (trace (repo_show_cmd sample_sdk show_all_cli teamA tools "cli")) =
    ["Repository: cli in Project: Tools in Workspace: teamA";
     "Link: clone -> [https, ssh]";
     "HTTPS URL: https://bitbucket.org/team-a/cli.git";
     "SSH URL: git@bitbucket.org:team-a/cli.git"].
Proof.
  split; [reflexivity |].
  exact (proj1 (X14_show_prints_details_in_order
                  sample_sdk show_all_cli teamA tools "cli" cli_repo
                  _ "clone" _ _ _ eq_refl eq_refl eq_refl eq_refl eq_refl
                  eq_refl)).
Defined.

(** ** The clone URLs *)

(** X15.  [https_url] and [ssh_url] read the clone links by position, 0
    and 1.  Without links both raise [TypeError]; without a [clone] entry
    both raise [KeyError]; with an empty clone list [https_url] raises
    [IndexError], and with fewer than two clone links [ssh_url] does. *)
Theorem X15_clone_urls_by_position (repository : Repository) :
  (repo_links repository = None ->
   https_url repository =
     raise (TypeError "'NoneType' object is not subscriptable") /\
   ssh_url repository =
     raise (TypeError "'NoneType' object is not subscriptable")) /\
  (forall links,
     repo_links repository = Some links ->
     find (fun kv => fst kv =? "clone") links = None ->
     https_url repository = raise KeyError /\
     ssh_url repository = raise KeyError) /\
  (forall links key clone,
     repo_links repository = Some links ->
     find (fun kv => fst kv =? "clone") links = Some (key, clone) ->
     (lv_hrefs clone = [] -> https_url repository = raise IndexError) /\
     (length (lv_hrefs clone) < 2 -> ssh_url repository = raise IndexError) /\
     (forall href rest,
        lv_hrefs clone = Some href :: rest -> https_url repository = ret href) /\
     (forall x href rest,
        lv_hrefs clone = x :: Some href :: rest ->
        ssh_url repository = ret href)).
Proof.
  unfold https_url, ssh_url, clone_href.
  split; [intros ->; now split |].
  split; [intros links -> ->; now split |].
  intros links key clone -> ->. repeat split.
  - now intros ->.
  - intros Hlen.
    now rewrite (proj2 (nth_error_None (lv_hrefs clone) 1)) by lia.
  - now intros href rest ->.
  - now intros x href rest ->.
Qed.

Lemma X15_clone_urls_by_position_witness :
  (repo_links bare_repo = None /\
   https_url bare_repo =
     raise (TypeError "'NoneType' object is not subscriptable")) /\
  (length [Some "https://bitbucket.org/team-a/one.git"] < 2 /\
   ssh_url https_only_repo = raise IndexError /\
   https_url https_only_repo = ret "https://bitbucket.org/team-a/one.git").
Proof.
  split.
  - split; [reflexivity |].
    exact (proj1 (proj1 (X15_clone_urls_by_position bare_repo) eq_refl)).
  - destruct (X15_clone_urls_by_position https_only_repo) as (_ & _ & H).
    destruct (H _ "clone" _ eq_refl eq_refl) as (_ & Hs & Hh & _).
    assert (Hlen : length [Some "https://bitbucket.org/team-a/one.git"] < 2)
      by (cbn; lia).
    split; [exact Hlen | split].
    + exact (Hs Hlen).
    + exact (Hh _ _ eq_refl).
Defined.

(** ** [repository ... create] *)

Lemma chosen_policy_recognized (sdk : Atlassian) (o : CreateOptions) :
  match chosen_policy sdk o with
  | None => false
  | Some policy => negb (existsb (String.eqb policy) (FORK_POLICIES sdk))
  end = false.
Proof.
  unfold chosen_policy, FORK_POLICIES.
  destruct (opt_allow_forks o), (opt_no_allow_forks o),
    (opt_no_public_forks o); cbn [existsb];
    rewrite ?String.eqb_refl, ?orb_true_r; reflexivity.
Qed.

(** The creation step of a command line [... -r NAME create FLAGS]. *)
Lemma create_step (sdk : Atlassian) (env : Environ) (inv : Invocation)
    (alias : bool) (w p name : string) (o : CreateOptions) (ws : Workspace)
    (pj : Project) (line : Invocation) :
  line = repository_line inv alias w p false (Some name) (Create o) ->
  __create_repository sdk (constructed env line) pj ws =
    (repository <-
       (reply <- remote (RepositoriesCreate ws name (pr_key pj)
                           (chosen_visibility o) (chosen_policy sdk o))
                        (repositories_create (session sdk env line) ws name
                           (pr_key pj) (chosen_visibility o)
                           (chosen_policy sdk o)) ;;
        BitbucketCLIRepositoryWrapper reply) ;;
     print ("Repository: " ++ repo_name repository ++ " created in " ++
            ("Project: " ++ pr_name pj ++
             " in Workspace: " ++ ws_name ws))).
Proof.
  intros ->. unfold __create_repository, create_repository.
  change (bbc sdk (constructed env ?i)) with (session sdk env i).
  cbn [constructed __args __for_scripting namespace_of repository_line
       with_command command namespace args_public args_private
       args_allow_forks args_no_allow_forks args_no_public_forks
       args_repository negb].
  fold (chosen_visibility o). fold (chosen_policy sdk o).
  rewrite (chosen_policy_recognized sdk o). reflexivity.
Qed.

(** X16.  [repository -w W -P P -r NAME create FLAGS], accepted, with a
    resolved username, both ancestors found and the creation accepted: the
    create operation is called once, with the visibility and the fork policy
    the flags choose ([None] for a group with no flag set), and the
    confirmation line is printed.  The policy the flags choose always passes
    the local check of [create_repository]. *)
Theorem X16_create_passes_flags_to_sdk (sdk : Atlassian) (env : Environ)
    (inv : Invocation) (alias : bool) (w p name : string)
    (o : CreateOptions) (ws : Workspace) (pj : Project)
    (repo : Repository) (line : Invocation) :
  line = repository_line inv alias w p false (Some name) (Create o) ->
  well_formed line = true ->
  resolved_username env inv <> None ->
  workspaces_get (session sdk env line) w = Reply (PyObj ws) ->
  projects_get (session sdk env line) ws p = Reply (PyObj pj) ->
  repositories_create (session sdk env line) ws name (pr_key pj)
                      (chosen_visibility o) (chosen_policy sdk o) =
    Reply (PyObj repo) ->
  main sdk env line =
    ((password_prompt env line ++
      [Remote (WorkspacesGet w); Remote (ProjectsGet ws p);
       Remote (RepositoriesCreate ws name (pr_key pj) (chosen_visibility o)
                                  (chosen_policy sdk o));
       Print ("Repository: " ++ repo_name repo ++ " created in " ++
              ("Project: " ++ pr_name pj ++
               " in Workspace: " ++ ws_name ws))])%list,
     inr tt).
Proof.
  intros Hl Hwf Hu Hw Hp Hc.
  rewrite (repository_run sdk env inv alias w p false (Some name) (Create o)
             ws pj line _ Hl (proj2 (validate_well_formed line) Hwf)
             Hu Hw Hp eq_refl).
  rewrite (create_step sdk env inv alias w p name o ws pj line Hl).
  unfold remote. rewrite Hc. reflexivity.
Qed.

Lemma X16_create_passes_flags_to_sdk_witness :
  well_formed (repository_line (plain Tests) false "team-a" "TL" false
                 (Some "newrepo") (Create no_create)) = true /\
  main sample_sdk sample_env
       (repository_line (plain Tests) false "team-a" "TL" false
          (Some "newrepo") (Create no_create)) =
    ([Remote (WorkspacesGet "team-a"); Remote (ProjectsGet teamA "TL");
      Remote (RepositoriesCreate teamA "newrepo" "TL" None None);
      Print "Repository: newrepo created in Project: Tools in Workspace: teamA"],
     inr tt).
Proof.
  split; [reflexivity |].
  apply (X16_create_passes_flags_to_sdk
           sample_sdk sample_env (plain Tests) false "team-a" "TL" "newrepo"
           no_create teamA tools
           {| repo_name := "newrepo"; repo_slug := "newrepo";
              repo_links := None |} _ eq_refl);
    try reflexivity.
  discriminate.
Defined.

(** X17.  When the hosting service rejects the creation, the SDK's
    exception ends the run right after the create call: no confirmation is
    printed, and the exit status is 1. *)
Theorem X17_rejected_creation_prints_nothing (sdk : Atlassian)
    (env : Environ) (inv : Invocation) (alias : bool) (w p name : string)
    (o : CreateOptions) (ws : Workspace) (pj : Project) (msg : string)
    (line : Invocation) :
  line = repository_line inv alias w p false (Some name) (Create o) ->
  well_formed line = true ->
  resolved_username env inv <> None ->
  workspaces_get (session sdk env line) w = Reply (PyObj ws) ->
  projects_get (session sdk env line) ws p = Reply (PyObj pj) ->
  repositories_create (session sdk env line) ws name (pr_key pj)
                      (chosen_visibility o) (chosen_policy sdk o) =
    Fault msg ->
  main sdk env line =
    ((password_prompt env line ++
      [Remote (WorkspacesGet w); Remote (ProjectsGet ws p);
       Remote (RepositoriesCreate ws name (pr_key pj) (chosen_visibility o)
                                  (chosen_policy sdk o))])%list,
     inl (HTTPError msg)) /\
  stdout (trace (main sdk env line)) = [] /\
  exit_status (main sdk env line) = 1%Z.
Proof.
  intros Hl Hwf Hu Hw Hp Hc.
  assert (Hrun :
    main sdk env line =
      ((password_prompt env line ++
        [Remote (WorkspacesGet w); Remote (ProjectsGet ws p);
         Remote (RepositoriesCreate ws name (pr_key pj) (chosen_visibility o)
                                    (chosen_policy sdk o))])%list,
       inl (HTTPError msg))).
  { rewrite (repository_run sdk env inv alias w p false (Some name)
               (Create o) ws pj line _ Hl
               (proj2 (validate_well_formed line) Hwf) Hu Hw Hp eq_refl).
    rewrite (create_step sdk env inv alias w p name o ws pj line Hl).
    unfold remote. rewrite Hc. reflexivity. }
  rewrite Hrun. repeat split.
  cbn [trace fst]. now rewrite stdout_app, stdout_password_prompt.
Qed.

Lemma X17_rejected_creation_prints_nothing_witness :
  well_formed (create_line (plain Tests) false "team-a" "TL" "cli") = true /\
  main refusing_sdk sample_env
       (create_line (plain Tests) false "team-a" "TL" "cli") =
    ([Remote (WorkspacesGet "team-a"); Remote (ProjectsGet teamA "TL");
      Remote (RepositoriesCreate teamA "cli" "TL" (Some true)
                                 (Some "no_forks"))],
     inl (HTTPError "400")).
Proof.
  split; [reflexivity |].
  apply (X17_rejected_creation_prints_nothing
           refusing_sdk sample_env (plain Tests) false "team-a" "TL" "cli"
           private_no_forks teamA tools "400" _ eq_refl);
    try reflexivity.
  discriminate.
Defined.

(** ** The detail printers in both modes *)

Lemma clone_href_cases (repository : Repository) (i : nat) :
  (exists e, clone_href repository i = raise e) \/
  (exists url, clone_href repository i = ret url).
Proof.
  unfold clone_href.
  destruct (repo_links repository) as [links |]; [| left; eexists; reflexivity].
  destruct (find _ links) as [[key v] |]; [| left; eexists; reflexivity].
  destruct (nth_error (lv_hrefs v) i) as [[href |] |];
    [right | left | left]; eexists; reflexivity.
Qed.

(** X18.  Each of the three detail printers prints, in human mode, exactly
    its scripting-mode lines with the label in front ([Link: ],
    [HTTPS URL: ], [SSH URL: ]), and ends the same way in both modes. *)
Theorem X18_detail_printers_relabel (self : BitbucketCLI)
    (repository : Repository) :
  (stdout (trace (__print_repository_links (forced_scripting false self)
                                           repository)) =
     map (fun bare => "Link: " ++ bare)
         (stdout (trace (__print_repository_links
                           (forced_scripting true self) repository))) /\
   outcome (__print_repository_links (forced_scripting false self)
                                     repository) =
     outcome (__print_repository_links (forced_scripting true self)
                                       repository)) /\
  (stdout (trace (__print_repository_https_url (forced_scripting false self)
                                               repository)) =
     map (fun bare => "HTTPS URL: " ++ bare)
         (stdout (trace (__print_repository_https_url
                           (forced_scripting true self) repository))) /\
   outcome (__print_repository_https_url (forced_scripting false self)
                                         repository) =
     outcome (__print_repository_https_url (forced_scripting true self)
                                           repository)) /\
  (stdout (trace (__print_repository_ssh_url (forced_scripting false self)
                                             repository)) =
     map (fun bare => "SSH URL: " ++ bare)
         (stdout (trace (__print_repository_ssh_url
                           (forced_scripting true self) repository))) /\
   outcome (__print_repository_ssh_url (forced_scripting false self)
                                       repository) =
     outcome (__print_repository_ssh_url (forced_scripting true self)
                                         repository)).
Proof.
  unfold __print_repository_links, __print_repository_https_url,
    __print_repository_ssh_url, https_url, ssh_url.
  cbn [forced_scripting __for_scripting].
  split; [| split].
  - destruct (repo_links repository) as [links |]; [| now split].
    rewrite !iterate_print. cbn [trace outcome fst snd].
    rewrite !stdout_map_print, map_map. now split.
  - destruct (clone_href_cases repository 0) as [[e ->] | [url ->]];
      now split.
  - destruct (clone_href_cases repository 1) as [[e ->] | [url ->]];
      now split.
Qed.

(** ** Order of effects *)

Lemma main_program_never_prompts (sdk : Atlassian) (self : BitbucketCLI) :
  without is_prompt (main_program sdk self).
Proof.
  unfold main_program, workspace_cmd, project_cmd, repo_cmd, repo_show_cmd,
    __create_repository, create_repository, __list_workspaces,
    __list_projects, __list_repositories, __print_repository_links,
    __print_repository_https_url, __print_repository_ssh_url, https_url,
    ssh_url, for_each, bbc_getitem, workspace_getitem, project_getitem,
    remote, BitbucketCLIWorkspaceWrapper, BitbucketCLIProjectWrapper,
    BitbucketCLIRepositoryWrapper, print, print_help.
  trace_free; solve [reflexivity | apply clone_href_silent].
Qed.

Lemma without_prompts {A : Type} (m : M A) :
  without is_prompt m -> prompts (trace m) = [].
Proof.
  unfold without. induction (trace m) as [| e t IH]; [reflexivity |].
  cbn. intros H. apply andb_prop in H. destruct H as [He Ht].
  destruct e; try discriminate He; now apply IH.
Qed.

(** X19.  Every run splits into a first part, the construction of the
    object, that makes no round trip to the SDK, and a second part, the
    command, that never prompts: the password is asked for, if at all, before
    the service is first contacted. *)
Theorem X19_prompt_precedes_every_round_trip (sdk : Atlassian)
    (env : Environ) (inv : Invocation) :
  exists before after,
    trace (main sdk env inv) = (before ++ after)%list /\
    before = trace (__init__ env inv) /\
    remote_calls before = [] /\
    prompts after = [].
Proof.
  exists (trace (__init__ env inv)).
  exists (match outcome (__init__ env inv) with
          | inr cli =>
              trace (if args_subcommand (__args cli) =? "tests"
                     then emit RunTests else main_program sdk cli)
          | inl _ => []
          end).
  split; [unfold main; apply trace_bind |].
  split; [reflexivity |].
  split; [apply (construction_local env inv) |].
  destruct (outcome (__init__ env inv)) as [e | cli]; [reflexivity |].
  destruct (_ =? "tests"); [reflexivity |].
  apply without_prompts, main_program_never_prompts.
Qed.
